(** * PriceManagement: the admin price page over a relational store

    A shallow embedding of [src/pages/PriceManagement.jsx].  The React
    component keeps five pieces of state ([user], [priceHistory],
    [currentPrices], [loading], [newPrice]) and talks to three tables of a
    relational store ([users], [coffee_prices], [coffee_price_history])
    through a generic client.  The asynchronous functions of the page
    ([checkUser], [fetchPrices], [fetchPriceHistory], [handleSubmit]) are
    embedded in a small state-and-exception monad that also records the
    observable effects (requests, notices, redirects, console output). *)

From Stdlib Require Import List String ZArith Bool Arith Lia Sorted Permutation.
Import ListNotations.
Open Scope string_scope.
Open Scope list_scope.

Set Implicit Arguments.

(* ------------------------------------------------------------------ *)
(** ** Data model: the rows of the three tables *)

Definition UserId := string.
Definition Timestamp := Z.

(** A price as the page carries it: the decimal text typed in the form
    (an [<input type="number">] yields a string) and echoed by the store. *)
Definition Price := string.

Module Users.
Record row := mk
  { id : UserId; role : string; first_name : string; last_name : string }.
End Users.

(** The embedded resource [creator:created_by (first_name, last_name)] and
    [user:changed_by (first_name, last_name)] of the two select lists. *)
Record Person := mkPerson { first_name : string; last_name : string }.

Module Prices.
Record row := mk
  { price_id : nat;
    coffee_type : string;
    price_per_kg : Price;
    currency : string;
    is_active : bool;
    created_by : UserId;
    updated_at : Timestamp }.

(** A row of [fetchPrices]: every column plus the joined creator. *)
Record joined := mkJoined { columns : row; creator : option Person }.
End Prices.

Module History.
Record row := mk
  { history_id : nat;
    price_id : nat;
    coffee_type : string;
    old_price : Price;
    new_price : Price;
    changed_by : UserId;
    change_date : Timestamp;
    reason : string }.

(** A row of [fetchPriceHistory]: every column plus the joined changer. *)
Record joined := mkJoined { columns : row; user : option Person }.
End History.

(** The form state [newPrice]. *)
Module Form.
Record t := mk
  { coffee_type : string; price_per_kg : Price; currency : string }.
End Form.

(** The object literal [historyRecord] built by [handleSubmit]. *)
Module HistoryRecord.
Record t := mk
  { price_id : nat;
    coffee_type : string;
    old_price : Price;
    new_price : Price;
    changed_by : UserId;
    reason : string }.
End HistoryRecord.

Record Store := mkStore
  { users : list Users.row;
    coffee_prices : list Prices.row;
    coffee_price_history : list History.row }.

(* ------------------------------------------------------------------ *)
(** ** The store client *)

(** Modelled from the spec: the relational store behind the client that the
    page imports from [../lib/supabaseClient] is not part of the page;
    section 6 gives its interface ([select(filter, ordering, joins) -> rows],
    [insert(record) -> insertedRecord], [update(filter, patch) -> void]).
    Tables are lists of rows in insertion order; [select ... order] is a
    stable sort by the given column; an insert appends a row whose key is
    fresh and whose timestamp is the store's clock; an update patches every
    row that its filter matches. *)
Fixpoint insert_by (A : Type) (le : A -> A -> bool) (x : A) (l : list A) : list A :=
  match l with
  | [] => [x]
  | y :: l' => if le x y then x :: y :: l' else y :: insert_by le x l'
  end.

Definition order_by (A : Type) (le : A -> A -> bool) (l : list A) : list A :=
  fold_right (insert_by le) [] l.

Definition embed_person (us : list Users.row) (uid : UserId) : option Person :=
  match find (fun u => Users.id u =? uid) us with
  | Some u => Some (mkPerson (Users.first_name u) (Users.last_name u))
  | None => None
  end.

Definition join_creator (us : list Users.row) (r : Prices.row) : Prices.joined :=
  Prices.mkJoined r (embed_person us (Prices.created_by r)).

Definition join_changer (us : list Users.row) (h : History.row) : History.joined :=
  History.mkJoined h (embed_person us (History.changed_by h)).

(** [.eq('is_active', true).order('coffee_type')] *)
Definition by_coffee_type (a b : Prices.row) : bool :=
  String.leb (Prices.coffee_type a) (Prices.coffee_type b).

Definition listActivePrices (s : Store) : list Prices.joined :=
  map (join_creator (users s))
      (order_by by_coffee_type (filter Prices.is_active (coffee_prices s))).

(** [.order('change_date', { ascending: false })] *)
Definition by_change_date_desc (a b : History.row) : bool :=
  (History.change_date b <=? History.change_date a)%Z.

Definition listPriceHistory (s : Store) : list History.joined :=
  map (join_changer (users s))
      (order_by by_change_date_desc (coffee_price_history s)).

Definition fresh_price_id (ps : list Prices.row) : nat :=
  S (list_max (map Prices.price_id ps)).

Definition fresh_history_id (hs : list History.row) : nat :=
  S (list_max (map History.history_id hs)).

(** The row that [insert([{...newPrice, created_by, is_active}])] stores. *)
Definition new_price_row (s : Store) (now : Timestamp)
    (f : Form.t) (created_by : UserId) (is_active : bool) : Prices.row :=
  Prices.mk (fresh_price_id (coffee_prices s))
            (Form.coffee_type f) (Form.price_per_kg f) (Form.currency f)
            is_active created_by now.

Definition add_price (s : Store) (r : Prices.row) : Store :=
  mkStore (users s) (coffee_prices s ++ [r]) (coffee_price_history s).

Definition set_inactive (r : Prices.row) : Prices.row :=
  Prices.mk (Prices.price_id r) (Prices.coffee_type r) (Prices.price_per_kg r)
            (Prices.currency r) false (Prices.created_by r) (Prices.updated_at r).

(** [.update({ is_active: false }).eq('price_id', pid)] *)
Definition deactivate (pid : nat) (ps : list Prices.row) : list Prices.row :=
  map (fun r => if (Prices.price_id r =? pid)%nat then set_inactive r else r) ps.

Definition deactivate_price (s : Store) (pid : nat) : Store :=
  mkStore (users s) (deactivate pid (coffee_prices s)) (coffee_price_history s).

Definition new_history_row (s : Store) (now : Timestamp)
    (h : HistoryRecord.t) : History.row :=
  History.mk (fresh_history_id (coffee_price_history s))
             (HistoryRecord.price_id h) (HistoryRecord.coffee_type h)
             (HistoryRecord.old_price h) (HistoryRecord.new_price h)
             (HistoryRecord.changed_by h) now (HistoryRecord.reason h).

Definition add_history (s : Store) (h : History.row) : Store :=
  mkStore (users s) (coffee_prices s) (coffee_price_history s ++ [h]).

(** The requests the page sends, one constructor per call site. *)
Inductive Request :=
| SelectUser (uid : UserId)
| SelectActivePrices
| SelectPriceHistory
| InsertPrice (f : Form.t) (created_by : UserId) (is_active : bool)
| DeactivatePrice (pid : nat)
| InsertHistory (h : HistoryRecord.t).

Definition is_write (q : Request) : bool :=
  match q with
  | InsertPrice _ _ _ | DeactivatePrice _ | InsertHistory _ => true
  | _ => false
  end.

Inductive Error :=
| StoreError (q : Request)
| TypeError (msg : string).

(** The client's [{ data, error }] answer: exactly one of the two is set. *)
Inductive Response (A : Type) :=
| Data (data : A)
| Failed (error : Error).
Arguments Failed {A} error.

(** What the environment decides for one round trip: whether the call is
    refused, and the store's clock when it is served. *)
Record Reply := mkReply { fails : bool; stamp : Timestamp }.

(** [.single()]: an error unless exactly one row matches. *)
Definition single_user (s : Store) (uid : UserId) : Response Users.row :=
  match filter (fun u => Users.id u =? uid) (users s) with
  | [u] => Data u
  | _ => Failed (StoreError (SelectUser uid))
  end.

(* ------------------------------------------------------------------ *)
(** ** The component: React state, effects, and the monad of the page *)

Record State := mkState
  { user : option Users.row;
    priceHistory : list History.joined;
    currentPrices : list Prices.joined;
    loading : bool;
    newPrice : Form.t }.

Definition default_form : Form.t := Form.mk "raw" "" "PHP".

(** [useState] initial values. *)
Definition initial_state : State := mkState None [] [] true default_form.

Inductive Level := LogLevel | ErrorLevel.
Inductive Notice := Success | Failure.

Inductive Event :=
| PreventDefault
| Console (lvl : Level) (msg : string)
| Toast (kind : Notice) (msg : string)
| Navigate (path : string)
| AuthGetUser
| Query (q : Request) (ok : bool).

(** The world a handler runs in: the store, the signed-in principal of the
    identity provider, the replies the environment will give ([sent] counts
    the round trips made so far), and the component state. *)
Record World := mkWorld
  { store : Store;
    session : option UserId;
    replies : nat -> Reply;
    sent : nat;
    ui : State }.

Inductive Outcome (A : Type) :=
| Return (a : A)
| Throw (e : Error).
Arguments Throw {A} e.

Record Run (A : Type) := mkRun
  { out : Outcome A; world : World; trace : list Event }.

Definition M (A : Type) : Type := World -> Run A.

Definition ret (A : Type) (a : A) : M A :=
  fun w => mkRun (Return a) w [].

Definition throw (A : Type) (e : Error) : M A :=
  fun w => mkRun (Throw e) w [].
Arguments throw {A} e.

Definition bind (A B : Type) (m : M A) (k : A -> M B) : M B :=
  fun w =>
    match m w with
    | mkRun (Return a) w1 t1 =>
        match k a w1 with
        | mkRun o w2 t2 => mkRun o w2 (t1 ++ t2)
        end
    | mkRun (Throw e) w1 t1 => mkRun (Throw e) w1 t1
    end.

Declare Scope page_scope.
Delimit Scope page_scope with page.
Notation "x <- m ;; k" := (bind m (fun x => k))
  (at level 100, m at next level, right associativity) : page_scope.
Notation "m ;; k" := (bind m (fun _ => k))
  (at level 100, right associativity) : page_scope.
Open Scope page_scope.

(** [try { body } catch (error) { handler }] *)
Definition try_catch (A : Type) (body : M A) (handler : Error -> M A) : M A :=
  fun w =>
    match body w with
    | mkRun (Return a) w1 t1 => mkRun (Return a) w1 t1
    | mkRun (Throw e) w1 t1 =>
        match handler e w1 with
        | mkRun o w2 t2 => mkRun o w2 (t1 ++ t2)
        end
    end.

(** [try { body } finally { fin }] *)
Definition try_finally (A : Type) (body : M A) (fin : M unit) : M A :=
  fun w =>
    match body w with
    | mkRun o w1 t1 =>
        match fin w1 with
        | mkRun (Return _) w2 t2 => mkRun o w2 (t1 ++ t2)
        | mkRun (Throw e) w2 t2 => mkRun (Throw e) w2 (t1 ++ t2)
        end
    end.

Definition emit (e : Event) : M unit :=
  fun w => mkRun (Return tt) w [e].

Definition console_log (msg : string) : M unit := emit (Console LogLevel msg).
Definition console_error (msg : string) : M unit := emit (Console ErrorLevel msg).
Definition toast_success (msg : string) : M unit := emit (Toast Success msg).
Definition toast_error (msg : string) : M unit := emit (Toast Failure msg).
Definition navigate (path : string) : M unit := emit (Navigate path).
Definition preventDefault : M unit := emit PreventDefault.

(** The values a handler closes over: the state of the current render. *)
Definition render : M State :=
  fun w => mkRun (Return (ui w)) w [].

Definition set_ui (f : State -> State) : M unit :=
  fun w =>
    mkRun (Return tt)
          (mkWorld (store w) (session w) (replies w) (sent w) (f (ui w))) [].

Definition setUser (u : option Users.row) : M unit :=
  set_ui (fun s => mkState u (priceHistory s) (currentPrices s) (loading s) (newPrice s)).
Definition setPriceHistory (l : list History.joined) : M unit :=
  set_ui (fun s => mkState (user s) l (currentPrices s) (loading s) (newPrice s)).
Definition setCurrentPrices (l : list Prices.joined) : M unit :=
  set_ui (fun s => mkState (user s) (priceHistory s) l (loading s) (newPrice s)).
Definition setLoading (b : bool) : M unit :=
  set_ui (fun s => mkState (user s) (priceHistory s) (currentPrices s) b (newPrice s)).
Definition setNewPrice (f : Form.t) : M unit :=
  set_ui (fun s => mkState (user s) (priceHistory s) (currentPrices s) (loading s) f).

(** [supabase.auth.getUser()] *)
Definition auth_getUser : M (option UserId) :=
  fun w => mkRun (Return (session w)) w [AuthGetUser].

(** One awaited round trip to the store.  A refused call leaves the store
    as it is; a served call runs [serve] at the store's clock. *)
Definition round_trip (A : Type) (q : Request)
    (serve : Timestamp -> Store -> Response A * Store) : M (Response A) :=
  fun w =>
    let r := replies w (sent w) in
    if fails r then
      mkRun (Return (Failed (StoreError q)))
            (mkWorld (store w) (session w) (replies w) (S (sent w)) (ui w))
            [Query q false]
    else
      let (resp, s') := serve (stamp r) (store w) in
      mkRun (Return resp)
            (mkWorld s' (session w) (replies w) (S (sent w)) (ui w))
            [Query q (match resp with Data _ => true | Failed _ => false end)].

Definition select_user (uid : UserId) : M (Response Users.row) :=
  round_trip (SelectUser uid) (fun _ s => (single_user s uid, s)).

Definition select_active_prices : M (Response (list Prices.joined)) :=
  round_trip SelectActivePrices (fun _ s => (Data (listActivePrices s), s)).

Definition select_price_history : M (Response (list History.joined)) :=
  round_trip SelectPriceHistory (fun _ s => (Data (listPriceHistory s), s)).

Definition insert_price (f : Form.t) (created_by : UserId) (is_active : bool)
  : M (Response Prices.row) :=
  round_trip (InsertPrice f created_by is_active)
    (fun now s =>
       let r := new_price_row s now f created_by is_active in
       (Data r, add_price s r)).

Definition update_inactive (pid : nat) : M (Response unit) :=
  round_trip (DeactivatePrice pid)
    (fun _ s => (Data tt, deactivate_price s pid)).

Definition insert_history (h : HistoryRecord.t) : M (Response unit) :=
  round_trip (InsertHistory h)
    (fun now s => (Data tt, add_history s (new_history_row s now h))).

(** [user.id]: a [TypeError] when [user] is [null]. *)
Definition user_id (u : option Users.row) : M UserId :=
  match u with
  | Some data => ret (Users.id data)
  | None => throw (TypeError "Cannot read properties of null (reading 'id')")
  end.

(** *** checkUser (lines 38-64) *)
Definition checkUser : M unit :=
  try_catch
    (authUser <- auth_getUser ;;
     match authUser with
     | Some uid =>
         r <- select_user uid ;;
         match r with
         | Failed error => throw error
         | Data data =>
             if negb (Users.role data =? "admin") then
               (toast_error "Admin access required" ;;
                navigate "/dashboard")
             else
               setUser (Some data)
         end
     | None => navigate "/login"
     end)
    (fun _ =>
       console_error "Error checking user:" ;;
       toast_error "Error checking user permissions").

(** *** fetchPrices (lines 66-86) *)
Definition fetchPrices : M unit :=
  try_catch
    (r <- select_active_prices ;;
     match r with
     | Failed error => throw error
     | Data data => setCurrentPrices data
     end)
    (fun _ =>
       console_error "Error fetching prices:" ;;
       toast_error "Failed to fetch current prices").

(** *** fetchPriceHistory (lines 88-115) *)
Definition fetchPriceHistory : M unit :=
  try_finally
    (try_catch
       (console_log "Fetching price history..." ;;
        r <- select_price_history ;;
        match r with
        | Failed error =>
            console_error "Supabase error:" ;;
            throw error
        | Data data =>
            console_log "Price history data:" ;;
            setPriceHistory data
        end)
       (fun _ =>
          console_error "Error fetching price history:" ;;
          toast_error "Failed to fetch price history"))
    (setLoading false).

(** *** handleSubmit (lines 117-199)

    [currentPrices], [newPrice] and [user] are the values of the render
    that created the handler; the setters only affect later renders. *)
Definition handleSubmit : M unit :=
  st <- render ;;
  preventDefault ;;
  setLoading true ;;
  try_finally
    (try_catch
       (console_log "Submitting new price..." ;;
        let currentPrice :=
          find (fun p => Prices.coffee_type (Prices.columns p)
                         =? Form.coffee_type (newPrice st))
               (currentPrices st) in
        created_by <- user_id (user st) ;;
        r <- insert_price (newPrice st) created_by true ;;
        match r with
        | Failed insertError =>
            console_error "Error inserting new price:" ;;
            throw insertError
        | Data insertedPrice =>
            console_log "New price inserted:" ;;
            match currentPrice with
            | Some currentPrice =>
                r <- update_inactive (Prices.price_id (Prices.columns currentPrice)) ;;
                match r with
                | Failed updateError =>
                    console_error "Error updating old price:" ;;
                    throw updateError
                | Data _ =>
                    console_log "Old price deactivated" ;;
                    changed_by <- user_id (user st) ;;
                    let historyRecord :=
                      HistoryRecord.mk
                        (Prices.price_id insertedPrice)
                        (Form.coffee_type (newPrice st))
                        (Prices.price_per_kg (Prices.columns currentPrice))
                        (Form.price_per_kg (newPrice st))
                        changed_by
                        "Price update" in
                    console_log "Creating history record:" ;;
                    r <- insert_history historyRecord ;;
                    match r with
                    | Failed historyError =>
                        console_error "Error creating history record:" ;;
                        throw historyError
                    | Data _ => console_log "History record created"
                    end
                end
            | None => ret tt
            end ;;
            toast_success "Price updated successfully" ;;
            setNewPrice default_form ;;
            fetchPrices ;;
            fetchPriceHistory
        end)
       (fun _ =>
          console_error "Error updating price:" ;;
          toast_error "Failed to update price"))
    (setLoading false).

(** *** The form's [onChange] handlers (lines 221, 244) *)
Definition onChange_coffee_type (value : string) : M unit :=
  st <- render ;;
  setNewPrice (Form.mk value (Form.price_per_kg (newPrice st))
                       (Form.currency (newPrice st))).

Definition onChange_price_per_kg (value : string) : M unit :=
  st <- render ;;
  setNewPrice (Form.mk (Form.coffee_type (newPrice st)) value
                       (Form.currency (newPrice st))).

(** *** The mount effect (lines 32-36)

    [checkUser(); fetchPrices(); fetchPriceHistory();] starts the three
    functions without awaiting any of them.  Each one only writes its own
    piece of state, so a run is determined by the order in which the three
    complete; [useEffect_mount] is the run in which they complete in the
    order they were started, [run_tasks] any other one. *)
Inductive Task := CheckUser | FetchPrices | FetchPriceHistory.

Definition run_task (t : Task) : M unit :=
  match t with
  | CheckUser => checkUser
  | FetchPrices => fetchPrices
  | FetchPriceHistory => fetchPriceHistory
  end.

Fixpoint run_tasks (ts : list Task) : M unit :=
  match ts with
  | [] => ret tt
  | t :: ts' => run_task t ;; run_tasks ts'
  end.

Definition mount_tasks : list Task := [CheckUser; FetchPrices; FetchPriceHistory].

Definition useEffect_mount : M unit := run_tasks mount_tasks.

Unset Implicit Arguments.

(* ------------------------------------------------------------------ *)
(** ** Observations on a run *)

(** The round trips of a trace, with their outcome. *)
Definition queries (t : list Event) : list (Request * bool) :=
  flat_map (fun e => match e with Query q ok => [(q, ok)] | _ => [] end) t.

Definition writes (t : list Event) : list (Request * bool) :=
  filter (fun p => is_write (fst p)) (queries t).

(** The notices shown to the user. *)
Definition notices (t : list Event) : list (Notice * string) :=
  flat_map (fun e => match e with Toast k m => [(k, m)] | _ => [] end) t.

Definition redirects (t : list Event) : list string :=
  flat_map (fun e => match e with Navigate p => [p] | _ => [] end) t.

(** A run of [handleSubmit] is successful when it sent at least one write
    and the store refused none; a write step fails when one was refused. *)
Definition succeeded (r : Run unit) : bool :=
  match writes (trace r) with
  | [] => false
  | ws => forallb snd ws
  end.

Definition write_failed (r : Run unit) : bool :=
  existsb (fun p => negb (snd p)) (writes (trace r)).

Definition issued (q : Request) (r : Run unit) : Prop :=
  exists ok, In (q, ok) (queries (trace r)).

(** The record [handleSubmit] takes for the prior price (line 124). *)
Definition currentPrice (st : State) : option Prices.joined :=
  find (fun p => Prices.coffee_type (Prices.columns p)
                 =? Form.coffee_type (newPrice st))
       (currentPrices st).

(** The reply to the [k]-th round trip from now. *)
Definition reply (w : World) (k : nat) : Reply := replies w (k + sent w).

(** ** The invariant of the prices table *)

Definition active_of (t : string) (r : Prices.row) : bool :=
  Prices.is_active r && (Prices.coffee_type r =? t).

Definition count_active (t : string) (ps : list Prices.row) : nat :=
  List.length (filter (active_of t) ps).

Definition at_most_one_active (s : Store) : Prop :=
  forall t, count_active t (coffee_prices s) <= 1.

(** The loaded active-price set is what a read of the store returns now. *)
Definition in_sync (w : World) : Prop :=
  currentPrices (ui w) = listActivePrices (store w).

(** ** Orderings of the history list *)

Definition date_of (h : History.joined) : Timestamp :=
  History.change_date (History.columns h).

Definition descending (l : list History.joined) : Prop :=
  StronglySorted (fun a b => (date_of b <= date_of a)%Z) l.

Definition strictly_descending (l : list History.joined) : Prop :=
  StronglySorted (fun a b => (date_of b < date_of a)%Z) l.

(* ------------------------------------------------------------------ *)
(** ** What a run of [handleSubmit] writes *)

(** The row inserted at line 127 and the record built at line 160. *)
Definition inserted_row (w : World) (u : Users.row) : Prices.row :=
  new_price_row (store w) (stamp (reply w 0)) (newPrice (ui w)) (Users.id u) true.

Definition history_record (w : World) (u : Users.row) (cp : Prices.joined)
  : HistoryRecord.t :=
  HistoryRecord.mk (Prices.price_id (inserted_row w u))
                   (Form.coffee_type (newPrice (ui w)))
                   (Prices.price_per_kg (Prices.columns cp))
                   (Form.price_per_kg (newPrice (ui w)))
                   (Users.id u)
                   "Price update".

(** The store a run of [handleSubmit] leaves behind. *)
Definition store_after_submit (w : World) : Store :=
  match user (ui w) with
  | None => store w
  | Some u =>
      if fails (reply w 0) then store w
      else
        let s1 := add_price (store w) (inserted_row w u) in
        match currentPrice (ui w) with
        | None => s1
        | Some cp =>
            if fails (reply w 1) then s1
            else
              let s2 := deactivate_price s1 (Prices.price_id (Prices.columns cp)) in
              if fails (reply w 2) then s2
              else add_history s2 (new_history_row s2 (stamp (reply w 2))
                                                   (history_record w u cp))
        end
  end.

(** The write requests of a run, in the order they were sent. *)
Definition writes_of_submit (w : World) : list (Request * bool) :=
  match user (ui w) with
  | None => []
  | Some u =>
      let ins := InsertPrice (newPrice (ui w)) (Users.id u) true in
      if fails (reply w 0) then [(ins, false)]
      else
        match currentPrice (ui w) with
        | None => [(ins, true)]
        | Some cp =>
            let upd := DeactivatePrice (Prices.price_id (Prices.columns cp)) in
            if fails (reply w 1) then [(ins, true); (upd, false)]
            else
              let hist := InsertHistory (history_record w u cp) in
              [(ins, true); (upd, true); (hist, negb (fails (reply w 2)))]
        end
  end.

(* ------------------------------------------------------------------ *)
(** ** Scenarios *)

Definition admin : Users.row := Users.mk "u-admin" "admin" "Ana" "Reyes".
Definition farmer : Users.row := Users.mk "u-farmer" "farmer" "Ben" "Cruz".

Definition raw150 : Prices.row :=
  Prices.mk 1 "raw" "150.00" "PHP" true "u-admin" 10%Z.

Definition shop : Store := mkStore [admin; farmer] [raw150] [].
Definition new_shop : Store := mkStore [admin; farmer] [] [].

(** Every round trip is served / all but the [k]-th are. *)
Definition served : nat -> Reply := fun _ => mkReply false 20%Z.
Definition refused_at (k : nat) : nat -> Reply :=
  fun n => mkReply (n =? k)%nat 20%Z.

(** The page right after it was opened. *)
Definition boot (s : Store) (principal : option UserId) (net : nat -> Reply)
  : World :=
  mkWorld s principal net 0 initial_state.

(** The admin opens the page and types a new price for raw coffee. *)
Definition admin_types_160 (s : Store) (net : nat -> Reply) : World :=
  world ((useEffect_mount ;; onChange_price_per_kg "160.00")
           (boot s (Some "u-admin") net)).

(* ------------------------------------------------------------------ *)
(** ** Properties of the page, as the specification words them *)

(** Section 8, first property: after a successful submit exactly one
    record of the submitted coffee type is active. *)
Definition one_active_after_submit (w : World) : Prop :=
  at_most_one_active (store w) ->
  succeeded (handleSubmit w) = true ->
  count_active (Form.coffee_type (newPrice (ui w)))
               (coffee_prices (store (world (handleSubmit w)))) = 1.

(** The admin's page missed the active-price read while loading (the read
    of [fetchPrices] was refused), so [currentPrices] is still empty. *)
Definition stale_page : World := admin_types_160 shop (refused_at 1).

(** The page loaded everything. *)
Definition fresh_page : World := admin_types_160 shop served.

(** The admin sets the first raw price of a store that has none. *)
Definition first_page : World := admin_types_160 new_shop served.

(** The user lookup of [checkUser] was refused: no redirect, [user] stays
    null, and the form is shown. *)
Definition unchecked_page : World := admin_types_160 shop (refused_at 0).

(** Section 8 scenario: a non-admin principal loads the page, is redirected
    away, and no data is fetched. *)
Definition non_admin_fetches_nothing (w : World) : Prop :=
  forall uid data,
    session w = Some uid ->
    single_user (store w) uid = Data data ->
    Users.role data <> "admin" ->
    redirects (trace (useEffect_mount w)) <> []
    /\ ~ issued SelectActivePrices (useEffect_mount w)
    /\ ~ issued SelectPriceHistory (useEffect_mount w).

(** The farmer opens the page. *)
Definition farmer_opens : World := boot shop (Some "u-farmer") served.

(** Section 4.2: a read clears the loading flag whatever its outcome. *)
Definition read_clears_loading (read : M unit) (w : World) : Prop :=
  loading (ui (world (read w))) = false.

(** The page right after it was opened, with its first round trip refused. *)
Definition opening_refused : World := boot shop (Some "u-admin") (refused_at 0).

(** Section 8: the history list is strictly ordered by [change_date]. *)
Definition strictly_ordered_history (w : World) : Prop :=
  strictly_descending (priceHistory (ui (world (fetchPriceHistory w)))).

(** Two price changes recorded at the same instant. *)
Definition raw_change : History.row :=
  History.mk 1 2 "raw" "150.00" "160.00" "u-admin" 20%Z "Price update".
Definition dried_change : History.row :=
  History.mk 2 4 "dried" "90.00" "95.00" "u-admin" 20%Z "Price update".

Definition tied_shop : Store :=
  mkStore [admin; farmer] [] [raw_change; dried_change].

(** The admin's page is loaded; the deactivation of the submit (the fifth
    round trip: three at mount, then the insert) will be refused. *)
Definition update_refused_page : World := admin_types_160 shop (refused_at 4).

(** Two price changes recorded at different instants, and a page that
    already shows them while its next round trip will be refused. *)
Definition fine_change : History.row :=
  History.mk 3 6 "fine" "200.00" "210.00" "u-admin" 30%Z "Price update".

Definition dated_shop : Store :=
  mkStore [admin; farmer] [] [raw_change; fine_change].

Definition history_shown : World :=
  world (fetchPriceHistory (boot dated_shop (Some "u-admin") (refused_at 1))).

(** The writes of a successful [handleSubmit]: the insert alone, or the
    insert, the deactivation and the history insert when the loaded set
    holds a record of the submitted coffee type.  The refresh follows. *)
Definition writes_before_refresh (st : State) : nat :=
  match currentPrice st with
  | Some _ => 3
  | None => 1
  end.

(* ------------------------------------------------------------------ *)
(** ** The rest of the component: what it renders, and its sessions *)

(** [coffeeTypes], the options of the dropdown (lines 24-30). *)
Module CoffeeType.
Record t := mk { value : string; label : string }.
End CoffeeType.

Definition coffeeTypes : list CoffeeType.t :=
  [ CoffeeType.mk "raw" "Raw Coffee";
    CoffeeType.mk "dried" "Dried Coffee";
    CoffeeType.mk "premium" "Premium Grade";
    CoffeeType.mk "fine" "Fine Grade";
    CoffeeType.mk "commercial" "Commercial Grade" ].

(** [coffeeTypes.find(t => t.value === coffee_type)?.label]
    (lines 308 and 345): [None] is the [undefined] that renders nothing. *)
Definition coffee_label (coffee_type : string) : option string :=
  match find (fun t => CoffeeType.value t =? coffee_type) coffeeTypes with
  | Some t => Some (CoffeeType.label t)
  | None => None
  end.

(** [p ? `${p.first_name} ${p.last_name}` : 'Unknown'] (lines 313, 350). *)
Definition display_name (p : option Person) : string :=
  match p with
  | Some c => String.append (first_name c) (String.append " " (last_name c))
  | None => "Unknown"
  end.

(** A line of the "Current Prices" table (lines 305-319); the last cell,
    a date in the browser's locale, is left out. *)
Record PriceLine := mkPriceLine
  { price_key : nat;
    price_label : option string;
    price_shown : Price;
    currency_shown : string;
    created_by_shown : string }.

Definition price_line (price : Prices.joined) : PriceLine :=
  mkPriceLine (Prices.price_id (Prices.columns price))
              (coffee_label (Prices.coffee_type (Prices.columns price)))
              (Prices.price_per_kg (Prices.columns price))
              (Prices.currency (Prices.columns price))
              (display_name (Prices.creator price)).

Definition current_prices_table (st : State) : list PriceLine :=
  map price_line (currentPrices st).

(** A line of the "Price History" table (lines 342-356), without its date. *)
Record HistoryLine := mkHistoryLine
  { history_key : nat;
    history_label : option string;
    old_price_shown : Price;
    new_price_shown : Price;
    changed_by_shown : string }.

Definition history_line (history : History.joined) : HistoryLine :=
  mkHistoryLine (History.history_id (History.columns history))
                (coffee_label (History.coffee_type (History.columns history)))
                (History.old_price (History.columns history))
                (History.new_price (History.columns history))
                (display_name (History.user history)).

Definition price_history_table (st : State) : list HistoryLine :=
  map history_line (priceHistory st).

(** The submit button (lines 273-283). *)
Record Button := mkButton { disabled : bool; caption : string }.

Definition submit_button (st : State) : Button :=
  mkButton (loading st) (if loading st then "Updating..." else "Update Price").

(** The [onChange] of the currency input (line 261); the input is
    [readOnly], so no action of the user reaches it. *)
Definition onChange_currency (value : string) : M unit :=
  st <- render ;;
  setNewPrice (Form.mk (Form.coffee_type (newPrice st))
                       (Form.price_per_kg (newPrice st)) value).

(** What the user can do with the form: pick a coffee type, type a price,
    submit. *)
Inductive Action :=
| PickType (value : string)
| TypePrice (value : string)
| Submit.

Definition perform (a : Action) : M unit :=
  match a with
  | PickType value => onChange_coffee_type value
  | TypePrice value => onChange_price_per_kg value
  | Submit => handleSubmit
  end.

(** A session of the page: the functions started by the mount effect
    complete and the user acts, in any order, one handler at a time. *)
Inductive Step :=
| Completes (t : Task)
| User (a : Action).

Definition step (s : Step) : M unit :=
  match s with
  | Completes t => run_task t
  | User a => perform a
  end.

Fixpoint steps (l : list Step) : M unit :=
  match l with
  | [] => ret tt
  | s :: l' => step s ;; steps l'
  end.

(** The dropdown only offers the values of [coffeeTypes]. *)
Definition offered (coffee_type : string) : Prop :=
  In coffee_type (map CoffeeType.value coffeeTypes).

Definition from_dropdown (s : Step) : Prop :=
  match s with
  | User (PickType value) => offered value
  | _ => True
  end.

(** A step that ends with [setLoading(false)]. *)
Definition clears_loading (s : Step) : bool :=
  match s with
  | Completes FetchPriceHistory | User Submit => true
  | _ => false
  end.

(** ** What the events of a run can be *)

(** An event that is not a write. *)
Definition reads_only (e : Event) : Prop :=
  match e with
  | Query q _ => is_write q = false
  | _ => True
  end.

(** An event whose insert, if it is one, names a user that satisfies [P]. *)
Definition carries (P : UserId -> Prop) (e : Event) : Prop :=
  match e with
  | Query (InsertPrice _ created_by _) _ => P created_by
  | Query (InsertHistory h) _ => P (HistoryRecord.changed_by h)
  | _ => True
  end.

(** The signed-in principal, when it has an admin row in [users]. *)
Definition admin_principal (w : World) (uid : UserId) : Prop :=
  session w = Some uid
  /\ exists u, In u (users (store w))
               /\ Users.id u = uid /\ Users.role u = "admin".

(** Whether a string holds a space. *)
Fixpoint has_space (s : string) : bool :=
  match s with
  | EmptyString => false
  | String c s' => Ascii.eqb c (Ascii.ascii_of_nat 32) || has_space s'
  end.


(** ** Well-formed rows and stores that only grow *)

(** A form, or a price row, in the one currency of the page and with a
    coffee type of the dropdown. *)
Definition form_ok (f : Form.t) : Prop :=
  Form.currency f = "PHP" /\ offered (Form.coffee_type f).

Definition row_ok (r : Prices.row) : Prop :=
  Prices.currency r = "PHP" /\ offered (Prices.coffee_type r).

Definition well_formed (w : World) : Prop :=
  form_ok (newPrice (ui w))
  /\ Forall row_ok (coffee_prices (store w))
  /\ Forall row_ok (map Prices.columns (currentPrices (ui w))).

(** A price row as it was, or as it was but no longer active. *)
Definition superseded (r r' : Prices.row) : Prop :=
  r' = r \/ r' = set_inactive r.

(** [s'] holds everything [s] held: the same users, the history rows of [s]
    followed by new ones, the price rows of [s] - some of them no longer
    active - followed by new ones. *)
Definition grows (s s' : Store) : Prop :=
  users s' = users s
  /\ (exists hs, coffee_price_history s' = coffee_price_history s ++ hs)
  /\ (exists olds news,
        coffee_prices s' = olds ++ news
        /\ Forall2 superseded (coffee_prices s) olds).

(** ** One submit after another *)

(** The page once [handleSubmit] has run. *)
Definition after_submit (w : World) : World := world (handleSubmit w).

(* ------------------------------------------------------------------ *)
(** ** Facts about the store client *)

Section OrderBy.
Variable A : Type.
Variable le : A -> A -> bool.

Lemma insert_by_perm (x : A) (l : list A) :
  Permutation (insert_by le x l) (x :: l).
Proof.
  induction l as [|y l IH]; simpl.
  - apply Permutation_refl.
  - destruct (le x y).
    + apply Permutation_refl.
    + apply perm_trans with (y :: x :: l).
      * now apply perm_skip.
      * apply perm_swap.
Qed.

Lemma order_by_perm (l : list A) : Permutation (order_by le l) l.
Proof.
  induction l as [|x l IH]; simpl.
  - apply perm_nil.
  - apply perm_trans with (x :: order_by le l).
    + apply insert_by_perm.
    + now apply perm_skip.
Qed.

Lemma order_by_In (x : A) (l : list A) : In x (order_by le l) <-> In x l.
Proof.
  split; apply Permutation_in.
  - apply order_by_perm.
  - apply Permutation_sym, order_by_perm.
Qed.

Hypothesis le_total : forall a b, le a b = false -> le b a = true.
Hypothesis le_trans : forall a b c, le a b = true -> le b c = true -> le a c = true.

Let R (a b : A) : Prop := le a b = true.

Lemma insert_by_sorted (x : A) (l : list A) :
  StronglySorted R l -> StronglySorted R (insert_by le x l).
Proof.
  induction 1 as [|y l Hs IH Hy]; simpl.
  - constructor; constructor.
  - destruct (le x y) eqn:E.
    + constructor.
      * now constructor.
      * constructor; [exact E|].
        eapply Forall_impl; [|exact Hy].
        intros z Hz. unfold R in *. eauto.
    + constructor; [exact IH|].
      rewrite Forall_forall. intros z Hz.
      apply (Permutation_in _ (insert_by_perm x l)) in Hz.
      destruct Hz as [<-|Hz].
      * now apply le_total.
      * rewrite Forall_forall in Hy. now apply Hy.
Qed.

Lemma order_by_sorted (l : list A) : StronglySorted R (order_by le l).
Proof.
  induction l as [|x l IH]; simpl.
  - constructor.
  - now apply insert_by_sorted.
Qed.
End OrderBy.

Lemma StronglySorted_map (A B : Type) (f : A -> B)
    (R : A -> A -> Prop) (Q : B -> B -> Prop) (l : list A) :
  (forall a b, R a b -> Q (f a) (f b)) ->
  StronglySorted R l -> StronglySorted Q (map f l).
Proof.
  intros HRQ. induction 1 as [|x l Hs IH Hx]; simpl; constructor; auto.
  rewrite Forall_forall in *. intros y Hy.
  apply in_map_iff in Hy. destruct Hy as [z [<- Hz]]. auto.
Qed.

Lemma listPriceHistory_columns (s : Store) :
  map History.columns (listPriceHistory s)
  = order_by by_change_date_desc (coffee_price_history s).
Proof.
  unfold listPriceHistory. rewrite map_map. simpl. apply map_id.
Qed.

Lemma listPriceHistory_descending (s : Store) : descending (listPriceHistory s).
Proof.
  unfold descending, listPriceHistory.
  apply StronglySorted_map
    with (R := fun a b => by_change_date_desc a b = true).
  - unfold by_change_date_desc, date_of. simpl. intros a b H.
    now apply Z.leb_le.
  - apply order_by_sorted; unfold by_change_date_desc.
    + intros a b H. apply Z.leb_gt in H. apply Z.leb_le. lia.
    + intros a b c H1 H2. apply Z.leb_le in H1, H2. apply Z.leb_le. lia.
Qed.

(** With pairwise distinct dates the order is strict. *)
Lemma descending_distinct (l : list History.joined) :
  descending l -> NoDup (map date_of l) -> strictly_descending l.
Proof.
  unfold descending, strictly_descending.
  induction 1 as [|x l Hs IH Hx]; intros Hnd; constructor.
  - apply IH. now inversion Hnd.
  - inversion Hnd as [|? ? Hnotin Hnd']; subst.
    rewrite Forall_forall in *. intros y Hy.
    specialize (Hx y Hy).
    assert (date_of y <> date_of x).
    { intros E. apply Hnotin. rewrite <- E. now apply in_map. }
    lia.
Qed.

(** A strictly ordered list has pairwise distinct dates. *)
Lemma strictly_descending_distinct (l : list History.joined) :
  strictly_descending l -> NoDup (map date_of l).
Proof.
  unfold strictly_descending.
  induction 1 as [|x l Hs IH Hx]; simpl; constructor; [|exact IH].
  intros Hin. apply in_map_iff in Hin. destruct Hin as [y [E Hy]].
  rewrite Forall_forall in Hx. specialize (Hx y Hy). lia.
Qed.

Lemma listPriceHistory_dates (s : Store) :
  Permutation (map date_of (listPriceHistory s))
              (map History.change_date (coffee_price_history s)).
Proof.
  unfold date_of. rewrite <- map_map with (g := History.change_date).
  rewrite listPriceHistory_columns.
  apply Permutation_map, order_by_perm.
Qed.

(** *** Counting active rows *)

Lemma count_active_app (t : string) (ps qs : list Prices.row) :
  count_active t (ps ++ qs) = count_active t ps + count_active t qs.
Proof.
  unfold count_active. now rewrite filter_app, length_app.
Qed.

Lemma count_active_zero (t : string) (ps : list Prices.row) :
  (forall r, In r ps -> active_of t r = false) -> count_active t ps = 0.
Proof.
  unfold count_active. induction ps as [|p ps IH]; intros H; simpl.
  - reflexivity.
  - rewrite (H p (or_introl eq_refl)). apply IH.
    intros r Hr. apply H. now right.
Qed.

Lemma count_active_pos (t : string) (ps : list Prices.row) (r : Prices.row) :
  In r ps -> active_of t r = true -> 1 <= count_active t ps.
Proof.
  unfold count_active. intros Hin Hact.
  assert (Hf : In r (filter (active_of t) ps)) by now apply filter_In.
  destruct (filter (active_of t) ps); [contradiction | simpl; lia].
Qed.

(** Under the invariant the active row of a coffee type is unique. *)
Lemma active_unique (t : string) (ps : list Prices.row) (r r' : Prices.row) :
  count_active t ps <= 1 ->
  In r ps -> active_of t r = true ->
  In r' ps -> active_of t r' = true ->
  r = r'.
Proof.
  unfold count_active. intros Hle Hr Ha Hr' Ha'.
  assert (H1 : In r (filter (active_of t) ps)) by now apply filter_In.
  assert (H2 : In r' (filter (active_of t) ps)) by now apply filter_In.
  destruct (filter (active_of t) ps) as [|x [|y l]]; simpl in *.
  - contradiction.
  - destruct H1 as [<-|[]], H2 as [<-|[]]. reflexivity.
  - lia.
Qed.

Lemma active_of_set_inactive (t : string) (r : Prices.row) :
  active_of t (set_inactive r) = false.
Proof. reflexivity. Qed.

Lemma count_active_deactivate_le (t : string) (pid : nat) (ps : list Prices.row) :
  count_active t (deactivate pid ps) <= count_active t ps.
Proof.
  unfold count_active, deactivate.
  induction ps as [|p ps IH]; simpl; [lia|].
  destruct (Prices.price_id p =? pid)%nat.
  - rewrite active_of_set_inactive. destruct (active_of t p); simpl; lia.
  - destruct (active_of t p); simpl; lia.
Qed.

Lemma count_active_deactivate_zero (t : string) (pid : nat) (ps : list Prices.row) :
  (forall r, In r ps -> active_of t r = true -> Prices.price_id r = pid) ->
  count_active t (deactivate pid ps) = 0.
Proof.
  intros H. apply count_active_zero. intros r Hr.
  apply in_map_iff in Hr. destruct Hr as [p [<- Hp]].
  destruct (Prices.price_id p =? pid)%nat eqn:E.
  - apply active_of_set_inactive.
  - destruct (active_of t p) eqn:Ha; [|reflexivity].
    apply Nat.eqb_neq in E. elim E. now apply H.
Qed.

Lemma deactivate_inactive (pid : nat) (ps : list Prices.row) (r : Prices.row) :
  In r (deactivate pid ps) -> Prices.price_id r = pid -> Prices.is_active r = false.
Proof.
  intros Hr Hid. apply in_map_iff in Hr. destruct Hr as [p [<- Hp]].
  destruct (Prices.price_id p =? pid)%nat eqn:E; [reflexivity|].
  apply Nat.eqb_neq in E. contradiction.
Qed.

Lemma deactivate_other (pid : nat) (ps : list Prices.row) (r : Prices.row) :
  Prices.price_id r <> pid -> deactivate pid (ps ++ [r]) = deactivate pid ps ++ [r].
Proof.
  intros Hne. unfold deactivate. rewrite map_app. simpl.
  apply Nat.eqb_neq in Hne. now rewrite Hne.
Qed.

Lemma fresh_price_id_gt (ps : list Prices.row) (r : Prices.row) :
  In r ps -> Prices.price_id r < fresh_price_id ps.
Proof.
  intros Hr. unfold fresh_price_id.
  assert (H : Forall (fun k => k <= list_max (map Prices.price_id ps))
                     (map Prices.price_id ps)) by now apply list_max_le.
  rewrite Forall_forall in H.
  specialize (H (Prices.price_id r) (in_map _ _ _ Hr)). lia.
Qed.

(** *** The loaded set against the store *)

Lemma listActivePrices_In (s : Store) (p : Prices.joined) :
  In p (listActivePrices s) <->
  exists r, p = join_creator (users s) r
            /\ In r (coffee_prices s) /\ Prices.is_active r = true.
Proof.
  unfold listActivePrices. rewrite in_map_iff. split.
  - intros [r [<- Hr]]. exists r. split; [reflexivity|].
    apply order_by_In in Hr. now apply filter_In in Hr.
  - intros [r [-> Hr]]. exists r. split; [reflexivity|].
    apply order_by_In. now apply filter_In.
Qed.

Lemma currentPrice_in_store (w : World) (cp : Prices.joined) :
  in_sync w ->
  currentPrice (ui w) = Some cp ->
  In (Prices.columns cp) (coffee_prices (store w))
  /\ active_of (Form.coffee_type (newPrice (ui w))) (Prices.columns cp) = true.
Proof.
  unfold in_sync, currentPrice. intros Hs Hf.
  apply find_some in Hf. destruct Hf as [Hin Ht].
  rewrite Hs in Hin. apply listActivePrices_In in Hin.
  destruct Hin as [r [-> [Hr Ha]]]. simpl in *.
  split; [exact Hr|]. unfold active_of. now rewrite Ha, Ht.
Qed.

Lemma currentPrice_none_in_store (w : World) :
  in_sync w ->
  currentPrice (ui w) = None ->
  count_active (Form.coffee_type (newPrice (ui w))) (coffee_prices (store w)) = 0.
Proof.
  unfold in_sync, currentPrice. intros Hs Hf.
  apply count_active_zero. intros r Hr.
  unfold active_of. destruct (Prices.is_active r) eqn:Ha; [|reflexivity].
  simpl.
  apply (find_none _ _ Hf (join_creator (users (store w)) r)).
  rewrite Hs. apply listActivePrices_In. now exists r.
Qed.

(* ------------------------------------------------------------------ *)
(** ** Running the page symbolically *)

Ltac exec :=
  cbv beta iota zeta delta
    [handleSubmit fetchPrices fetchPriceHistory checkUser useEffect_mount
     run_tasks run_task mount_tasks
     bind ret throw try_catch try_finally emit
     console_log console_error toast_success toast_error navigate
     preventDefault render set_ui setUser setPriceHistory setCurrentPrices
     setLoading setNewPrice auth_getUser round_trip select_user
     select_active_prices select_price_history insert_price update_inactive
     insert_history user_id reply currentPrice
     out world trace store session replies sent ui
     user priceHistory currentPrices loading newPrice Nat.add negb]; cbn [app].

Ltac open_world w :=
  destruct w as [?s ?ses ?rep ?n [?u ?ph ?cp ?ld ?np]].

(** One step of case analysis on what the run is waiting for. *)
Ltac branch :=
  match goal with
  | |- context [match ?o with Some _ => _ | None => _ end] =>
      is_var o; destruct o
  | |- context [if fails ?r then _ else _] => destruct (fails r) eqn:?
  | |- context [match find ?f ?l with _ => _ end] => destruct (find f l) eqn:?
  | |- context [match single_user ?s ?u with _ => _ end] =>
      destruct (single_user s u) eqn:?
  end; exec; try congruence.

Ltac run_all w := open_world w; exec; repeat branch.

(** *** The two reads *)

Lemma fetchPrices_refused (w : World) :
  fails (reply w 0) = true ->
  fetchPrices w =
  mkRun (Return tt)
        (mkWorld (store w) (session w) (replies w) (S (sent w)) (ui w))
        [Query SelectActivePrices false;
         Console ErrorLevel "Error fetching prices:";
         Toast Failure "Failed to fetch current prices"].
Proof.
  open_world w. exec. intros ->. reflexivity.
Qed.

Lemma fetchPrices_served (w : World) :
  fails (reply w 0) = false ->
  fetchPrices w =
  mkRun (Return tt)
        (mkWorld (store w) (session w) (replies w) (S (sent w))
                 (mkState (user (ui w)) (priceHistory (ui w))
                          (listActivePrices (store w))
                          (loading (ui w)) (newPrice (ui w))))
        [Query SelectActivePrices true].
Proof.
  open_world w. exec. intros ->. reflexivity.
Qed.

Lemma fetchPriceHistory_refused (w : World) :
  fails (reply w 0) = true ->
  fetchPriceHistory w =
  mkRun (Return tt)
        (mkWorld (store w) (session w) (replies w) (S (sent w))
                 (mkState (user (ui w)) (priceHistory (ui w))
                          (currentPrices (ui w)) false (newPrice (ui w))))
        [Console LogLevel "Fetching price history...";
         Query SelectPriceHistory false;
         Console ErrorLevel "Supabase error:";
         Console ErrorLevel "Error fetching price history:";
         Toast Failure "Failed to fetch price history"].
Proof.
  open_world w. exec. intros ->. reflexivity.
Qed.

Lemma fetchPriceHistory_served (w : World) :
  fails (reply w 0) = false ->
  fetchPriceHistory w =
  mkRun (Return tt)
        (mkWorld (store w) (session w) (replies w) (S (sent w))
                 (mkState (user (ui w)) (listPriceHistory (store w))
                          (currentPrices (ui w)) false (newPrice (ui w))))
        [Console LogLevel "Fetching price history...";
         Query SelectPriceHistory true;
         Console LogLevel "Price history data:"].
Proof.
  open_world w. exec. intros ->. reflexivity.
Qed.

(** *** The writes of [handleSubmit], path by path *)

Lemma handleSubmit_store (w : World) :
  store (world (handleSubmit w)) = store_after_submit w.
Proof.
  unfold store_after_submit, history_record, inserted_row.
  run_all w; reflexivity.
Qed.

Lemma handleSubmit_writes (w : World) :
  writes (trace (handleSubmit w)) = writes_of_submit w.
Proof.
  unfold writes_of_submit, history_record, inserted_row.
  run_all w; reflexivity.
Qed.

(** A successful run had a user to dereference and every write served. *)
Lemma handleSubmit_succeeded_inv (w : World) :
  succeeded (handleSubmit w) = true ->
  exists u,
    user (ui w) = Some u
    /\ fails (reply w 0) = false
    /\ (forall cp, currentPrice (ui w) = Some cp ->
                   fails (reply w 1) = false /\ fails (reply w 2) = false).
Proof.
  unfold succeeded. rewrite handleSubmit_writes. unfold writes_of_submit.
  destruct (user (ui w)) as [u|]; [|discriminate].
  destruct (fails (reply w 0)); [discriminate|].
  intros H. exists u. split; [reflexivity|]. split; [reflexivity|].
  intros cp Hcp. rewrite Hcp in H.
  destruct (fails (reply w 1)); [discriminate|].
  destruct (fails (reply w 2)); [discriminate|]. now split.
Qed.

(** Success in the sense above is reaching the notice of line 183. *)
Lemma succeeded_iff_notice (w : World) :
  succeeded (handleSubmit w) = true <->
  In (Toast Success "Price updated successfully") (trace (handleSubmit w)).
Proof.
  unfold succeeded.
  run_all w; simpl; intuition congruence.
Qed.

(** *** A row superseded by a fresh one *)

Lemma active_of_inserted (w : World) (u : Users.row) (t : string) :
  active_of t (inserted_row w u) = (Form.coffee_type (newPrice (ui w)) =? t).
Proof. reflexivity. Qed.

Lemma count_active_snoc (t : string) (ps : list Prices.row) (r : Prices.row) :
  count_active t (ps ++ [r])
  = count_active t ps + (if active_of t r then 1 else 0).
Proof.
  rewrite count_active_app. unfold count_active at 2. simpl.
  now destruct (active_of t r).
Qed.

(** The prices table after a successful run that found a prior record. *)
Lemma superseded_count (ps : list Prices.row) (old new : Prices.row) (t t' : string) :
  count_active t ps <= 1 ->
  In old ps -> active_of t old = true ->
  Prices.price_id new = fresh_price_id ps ->
  count_active t' (deactivate (Prices.price_id old) (ps ++ [new]))
  = (if String.eqb t t' then 0 else count_active t' (deactivate (Prices.price_id old) ps))
    + (if active_of t' new then 1 else 0).
Proof.
  intros Hle Hold Hact Hid.
  rewrite deactivate_other.
  2:{ rewrite Hid. apply fresh_price_id_gt in Hold. lia. }
  rewrite count_active_snoc. f_equal.
  destruct (String.eqb_spec t t') as [<-|Hne]; [|reflexivity].
  apply count_active_deactivate_zero. intros r Hr Ha.
  f_equal. now apply (active_unique t ps).
Qed.


(** *** The scenario stores *)

Lemma shop_at_most_one_active : at_most_one_active shop.
Proof.
  intros t. unfold count_active. simpl.
  destruct (active_of t raw150); simpl; lia.
Qed.

Lemma new_shop_at_most_one_active : at_most_one_active new_shop.
Proof. intros t. unfold count_active. simpl. lia. Qed.
(** *** The access gate, by cases *)

Lemma checkUser_anonymous (w : World) :
  session w = None ->
  checkUser w = mkRun (Return tt) w [AuthGetUser; Navigate "/login"].
Proof.
  open_world w. simpl. intros ->. reflexivity.
Qed.

Lemma checkUser_row (w : World) (uid : UserId) (data : Users.row) :
  session w = Some uid ->
  fails (reply w 0) = false ->
  single_user (store w) uid = Data data ->
  checkUser w =
  if Users.role data =? "admin" then
    mkRun (Return tt)
          (mkWorld (store w) (session w) (replies w) (S (sent w))
                   (mkState (Some data) (priceHistory (ui w))
                            (currentPrices (ui w)) (loading (ui w))
                            (newPrice (ui w))))
          [AuthGetUser; Query (SelectUser uid) true]
  else
    mkRun (Return tt)
          (mkWorld (store w) (session w) (replies w) (S (sent w)) (ui w))
          [AuthGetUser; Query (SelectUser uid) true;
           Toast Failure "Admin access required"; Navigate "/dashboard"].
Proof.
  open_world w. simpl. intros -> H0 H1. exec. rewrite H0, H1.
  destruct (Users.role data =? "admin"); reflexivity.
Qed.

(** *** The mount effect *)

(** The six orders in which the three functions can complete. *)
Lemma mount_orders (order : list Task) :
  Permutation order mount_tasks ->
  In order [[CheckUser; FetchPrices; FetchPriceHistory];
            [CheckUser; FetchPriceHistory; FetchPrices];
            [FetchPrices; CheckUser; FetchPriceHistory];
            [FetchPrices; FetchPriceHistory; CheckUser];
            [FetchPriceHistory; CheckUser; FetchPrices];
            [FetchPriceHistory; FetchPrices; CheckUser]].
Proof.
  intros HP.
  pose proof (Permutation_length HP) as HL.
  apply Permutation_sym in HP.
  assert (H1 : In CheckUser order)
    by (apply (Permutation_in _ HP); simpl; auto).
  assert (H2 : In FetchPrices order)
    by (apply (Permutation_in _ HP); simpl; auto).
  assert (H3 : In FetchPriceHistory order)
    by (apply (Permutation_in _ HP); simpl; auto).
  destruct order as [|a [|b [|c [|d l]]]]; try discriminate HL.
  destruct a, b, c; simpl in H1, H2, H3; simpl;
    intuition (try discriminate).
Qed.

Ltac branch_with Hrow Hrole :=
  first [ rewrite Hrow; exec
        | rewrite Hrole; exec
        | branch ].


(** *** Runs of [handleSubmit] that stop at a refused write *)

Lemma handleSubmit_write_failed (w : World) :
  write_failed (handleSubmit w) = true ->
  queries (trace (handleSubmit w)) = writes (trace (handleSubmit w))
  /\ notices (trace (handleSubmit w)) = [(Failure, "Failed to update price")]
  /\ ui (world (handleSubmit w))
     = mkState (user (ui w)) (priceHistory (ui w)) (currentPrices (ui w))
               false (newPrice (ui w)).
Proof.
  unfold write_failed.
  run_all w; simpl; intros; try discriminate; repeat split.
Qed.

(** *** Runs of [handleSubmit] that reach the refresh *)

Lemma handleSubmit_refresh (w : World) :
  succeeded (handleSubmit w) = true ->
  newPrice (ui (world (handleSubmit w))) = default_form
  /\ loading (ui (world (handleSubmit w))) = false
  /\ In (Success, "Price updated successfully")
        (notices (trace (handleSubmit w)))
  /\ exists ok1 ok2,
       queries (trace (handleSubmit w))
       = writes (trace (handleSubmit w))
         ++ [(SelectActivePrices, ok1); (SelectPriceHistory, ok2)]
       /\ currentPrices (ui (world (handleSubmit w)))
          = (if ok1 then listActivePrices (store (world (handleSubmit w)))
             else currentPrices (ui w))
       /\ priceHistory (ui (world (handleSubmit w)))
          = (if ok2 then listPriceHistory (store (world (handleSubmit w)))
             else priceHistory (ui w)).
Proof.
  unfold succeeded.
  run_all w; simpl; intros; try discriminate;
    (split; [reflexivity|]); (split; [reflexivity|]); (split; [auto|]);
    eexists _, _; repeat split.
Qed.

(* ------------------------------------------------------------------ *)
(** ** Sessions of the page *)

Ltac exec_step :=
  cbv beta iota delta
    [step perform run_task onChange_coffee_type onChange_price_per_kg
     onChange_currency];
  exec.

(** *** Sequencing *)

Lemma bind_returns (A B : Type) (m : M A) (k : A -> M B) (w : World) (a : A) :
  out (m w) = Return a ->
  bind m k w
  = mkRun (out (k a (world (m w))))
          (world (k a (world (m w))))
          (trace (m w) ++ trace (k a (world (m w)))).
Proof.
  unfold bind. destruct (m w) as [o w1 t1]. simpl. intros ->.
  now destruct (k a w1).
Qed.

Lemma queries_app (t1 t2 : list Event) :
  queries (t1 ++ t2) = queries t1 ++ queries t2.
Proof. unfold queries. apply flat_map_app. Qed.

Lemma writes_app (t1 t2 : list Event) :
  writes (t1 ++ t2) = writes t1 ++ writes t2.
Proof. unfold writes. now rewrite queries_app, filter_app. Qed.

Lemma writes_in_queries (t : list Event) (p : Request * bool) :
  In p (writes t) <-> In p (queries t) /\ is_write (fst p) = true.
Proof. unfold writes. apply filter_In. Qed.

(** *** No handler lets an error escape *)

Lemma checkUser_returns (w : World) : out (checkUser w) = Return tt.
Proof.
  open_world w. exec. destruct ses; exec; [|reflexivity].
  repeat branch; try reflexivity.
  destruct (Users.role data =? "admin"); reflexivity.
Qed.

Lemma fetchPrices_returns (w : World) : out (fetchPrices w) = Return tt.
Proof. run_all w; reflexivity. Qed.

Lemma fetchPriceHistory_returns (w : World) :
  out (fetchPriceHistory w) = Return tt.
Proof. run_all w; reflexivity. Qed.

Lemma handleSubmit_returns (w : World) : out (handleSubmit w) = Return tt.
Proof. run_all w; reflexivity. Qed.

Lemma step_returns (s : Step) (w : World) : out (step s w) = Return tt.
Proof.
  destruct s as [[| |]|[v|v|]]; simpl.
  - apply checkUser_returns.
  - apply fetchPrices_returns.
  - apply fetchPriceHistory_returns.
  - open_world w. reflexivity.
  - open_world w. reflexivity.
  - apply handleSubmit_returns.
Qed.

Lemma steps_cons (s : Step) (l : list Step) (w : World) :
  steps (s :: l) w
  = mkRun (out (steps l (world (step s w))))
          (world (steps l (world (step s w))))
          (trace (step s w) ++ trace (steps l (world (step s w)))).
Proof.
  simpl. apply bind_returns with (a := tt). apply step_returns.
Qed.

Lemma steps_returns (l : list Step) (w : World) : out (steps l w) = Return tt.
Proof.
  revert w. induction l as [|s l IH]; intros w.
  - reflexivity.
  - rewrite steps_cons. simpl. apply IH.
Qed.

(** An invariant of every step that the session makes, together with what
    every event of a step satisfies, holds of the whole session. *)
Lemma steps_invariant (G : Step -> Prop) (I : World -> Prop) (Q : Event -> Prop) :
  (forall s w, G s -> I w ->
               I (world (step s w)) /\ Forall Q (trace (step s w))) ->
  forall l w, Forall G l -> I w ->
              I (world (steps l w)) /\ Forall Q (trace (steps l w)).
Proof.
  intros Hstep l. induction l as [|s l IH]; intros w HG HI.
  - simpl. split; [exact HI|constructor].
  - rewrite steps_cons. simpl.
    inversion HG as [|? ? Hs Hl]; subst.
    destruct (Hstep s w Hs HI) as [HI1 HQ1].
    destruct (IH _ Hl HI1) as [HI2 HQ2].
    split; [exact HI2|]. apply Forall_app. now split.
Qed.

(** *** The access gate when the lookup gives no row *)

Lemma checkUser_lookup_failed (w : World) (uid : UserId) :
  session w = Some uid ->
  fails (reply w 0) = true
  \/ (exists e, single_user (store w) uid = Failed e) ->
  checkUser w
  = mkRun (Return tt)
          (mkWorld (store w) (session w) (replies w) (S (sent w)) (ui w))
          [AuthGetUser; Query (SelectUser uid) false;
           Console ErrorLevel "Error checking user:";
           Toast Failure "Error checking user permissions"].
Proof.
  open_world w. simpl. intros -> H. exec.
  destruct (fails (rep n)) eqn:E; exec; [reflexivity|].
  destruct H as [H|[e H]]; [discriminate|]. now rewrite H.
Qed.

Lemma single_user_row (s : Store) (uid : UserId) (d : Users.row) :
  single_user s uid = Data d -> Users.id d = uid /\ In d (users s).
Proof.
  unfold single_user. intros H.
  assert (Hin : In d (filter (fun u => Users.id u =? uid) (users s))).
  { destruct (filter _ (users s)) as [|x [|y l]]; try discriminate.
    inversion H. now left. }
  apply filter_In in Hin. destruct Hin as [Hin E].
  apply String.eqb_eq in E. now split.
Qed.

(** *** Steps of a page with no user stored *)

Lemma reads_only_writes (t : list Event) :
  Forall reads_only t -> writes t = [].
Proof.
  induction 1 as [|e t He _ IH]; [reflexivity|].
  change (e :: t) with ([e] ++ t). rewrite writes_app, IH, app_nil_r.
  destruct e; try reflexivity. simpl in He. unfold writes. simpl.
  now rewrite He.
Qed.

Lemma task_reads_only (t : Task) (w : World) :
  store (world (run_task t w)) = store w
  /\ session (world (run_task t w)) = session w
  /\ Forall reads_only (trace (run_task t w)).
Proof.
  destruct t; simpl.
  - open_world w. exec. destruct ses; exec.
    + repeat branch;
        try match goal with
            | |- context [Users.role ?d =? "admin"] =>
                destruct (Users.role d =? "admin")
            end;
        repeat split; repeat constructor.
    + repeat split; repeat constructor.
  - run_all w; repeat split; repeat constructor.
  - run_all w; repeat split; repeat constructor.
Qed.

Lemma checkUser_keeps_out (w : World) :
  user (ui w) = None ->
  (forall uid d, session w = Some uid ->
                 single_user (store w) uid = Data d ->
                 Users.role d <> "admin") ->
  user (ui (world (checkUser w))) = None.
Proof.
  intros Hu Hna.
  destruct (session w) as [uid|] eqn:Hs.
  - destruct (fails (reply w 0)) eqn:Hf.
    + rewrite (checkUser_lookup_failed w uid Hs (or_introl Hf)). exact Hu.
    + destruct (single_user (store w) uid) as [d|e] eqn:Hr.
      * rewrite (checkUser_row w uid d Hs Hf Hr).
        pose proof (Hna uid d eq_refl Hr) as Hrole.
        apply String.eqb_neq in Hrole. rewrite Hrole. exact Hu.
      * rewrite (checkUser_lookup_failed w uid Hs).
        -- exact Hu.
        -- right. now exists e.
  - rewrite (checkUser_anonymous w Hs). exact Hu.
Qed.

Lemma step_without_user (w0 : World) (s : Step) (w : World) :
  (forall uid d, session w0 = Some uid ->
                 single_user (store w0) uid = Data d ->
                 Users.role d <> "admin") ->
  user (ui w) = None /\ session w = session w0 /\ store w = store w0 ->
  (user (ui (world (step s w))) = None
   /\ session (world (step s w)) = session w0
   /\ store (world (step s w)) = store w0)
  /\ Forall reads_only (trace (step s w)).
Proof.
  intros Hna [Hu [Hs Hst]].
  destruct s as [t|a].
  - destruct (task_reads_only t w) as [H1 [H2 H3]].
    simpl. rewrite H1, H2. repeat split; auto.
    destruct t; simpl.
    + apply checkUser_keeps_out; [exact Hu|]. now rewrite Hs, Hst.
    + revert Hu. run_all w; auto.
    + revert Hu. run_all w; auto.
  - destruct a as [v|v|]; simpl.
    + revert Hu Hs Hst. open_world w. simpl. intros -> <- <-.
      repeat split; constructor.
    + revert Hu Hs Hst. open_world w. simpl. intros -> <- <-.
      repeat split; constructor.
    + revert Hu Hs Hst. open_world w. simpl. intros -> <- <-.
      repeat split; repeat constructor.
Qed.

Lemma single_user_failed (s : Store) (uid : UserId) :
  List.length (filter (fun u => Users.id u =? uid) (users s)) <> 1 ->
  exists e, single_user s uid = Failed e.
Proof.
  unfold single_user. intros H.
  destruct (filter _ (users s)) as [|x [|y l]].
  - eexists. reflexivity.
  - now elim H.
  - eexists. reflexivity.
Qed.

Lemma run_tasks_steps (ts : list Task) :
  run_tasks ts = steps (map Completes ts).
Proof.
  induction ts as [|t ts IH]; simpl; [reflexivity|]. now rewrite IH.
Qed.

(** *** Who the writes of a session name *)

Lemma queries_In (t : list Event) (q : Request) (ok : bool) :
  In (q, ok) (queries t) <-> In (Query q ok) t.
Proof.
  unfold queries. rewrite in_flat_map. split.
  - intros [e [He Hin]]. destruct e; simpl in Hin; try contradiction.
    destruct Hin as [E|[]]. now inversion E; subst.
  - intros H. exists (Query q ok). split; [exact H|now left].
Qed.

Lemma checkUser_user (w : World) :
  user (ui (world (checkUser w))) = user (ui w)
  \/ exists uid d,
       session w = Some uid
       /\ single_user (store w) uid = Data d
       /\ Users.role d = "admin"
       /\ user (ui (world (checkUser w))) = Some d.
Proof.
  destruct (session w) as [uid|] eqn:Hs.
  - destruct (fails (reply w 0)) eqn:Hf.
    + left. now rewrite (checkUser_lookup_failed w uid Hs (or_introl Hf)).
    + destruct (single_user (store w) uid) as [d|e] eqn:Hr.
      * rewrite (checkUser_row w uid d Hs Hf Hr).
        destruct (String.eqb_spec (Users.role d) "admin") as [E|E].
        -- right. exists uid, d. now repeat split.
        -- now left.
      * left. rewrite (checkUser_lookup_failed w uid Hs); [reflexivity|].
        right. now exists e.
  - left. now rewrite (checkUser_anonymous w Hs).
Qed.

Lemma handleSubmit_carries (P : UserId -> Prop) (w : World) :
  (forall u, user (ui w) = Some u -> P (Users.id u)) ->
  Forall (carries P) (trace (handleSubmit w))
  /\ user (ui (world (handleSubmit w))) = user (ui w)
  /\ users (store (world (handleSubmit w))) = users (store w)
  /\ session (world (handleSubmit w)) = session w.
Proof.
  open_world w. simpl. intros HP. exec.
  destruct u as [u|]; exec; [specialize (HP u eq_refl)|];
    repeat branch; repeat split; repeat constructor; exact HP.
Qed.

Lemma step_carries (w0 : World) (s : Step) (w : World) :
  session w = session w0
  /\ users (store w) = users (store w0)
  /\ (forall u, user (ui w) = Some u -> admin_principal w0 (Users.id u)) ->
  (session (world (step s w)) = session w0
   /\ users (store (world (step s w))) = users (store w0)
   /\ (forall u, user (ui (world (step s w))) = Some u ->
                 admin_principal w0 (Users.id u)))
  /\ Forall (carries (admin_principal w0)) (trace (step s w)).
Proof.
  intros [Hs [Hus Hu]].
  destruct s as [t|a].
  - destruct (task_reads_only t w) as [H1 [H2 H3]]. simpl.
    rewrite H1, H2. split.
    + split; [exact Hs|]. split; [exact Hus|].
      destruct t; simpl.
      * destruct (checkUser_user w) as [E|[uid [d [Hses [Hr [Hrole E]]]]]];
          rewrite E; [exact Hu|].
        intros u Eu. inversion Eu. subst u.
        destruct (single_user_row _ _ _ Hr) as [Hid Hin].
        split; [congruence|]. exists d. rewrite <- Hus. now repeat split.
      * revert Hu. run_all w; auto.
      * revert Hu. run_all w; auto.
    + eapply Forall_impl; [|exact H3].
      intros e He. destruct e; simpl; auto.
      destruct q; simpl in *; auto; discriminate.
  - destruct a as [v|v|]; simpl.
    + open_world w.
      split; [split; [exact Hs | split; [exact Hus | exact Hu]] | constructor].
    + open_world w.
      split; [split; [exact Hs | split; [exact Hus | exact Hu]] | constructor].
    + destruct (handleSubmit_carries (admin_principal w0) w Hu)
        as [H1 [H2 [H3 H4]]].
      rewrite H2, H3, H4.
      split; [split; [exact Hs | split; [exact Hus | exact Hu]] | exact H1].
Qed.

(** *** The loading flag *)

Lemma step_loading (s : Step) (w : World) :
  loading (ui (world (step s w)))
  = if clears_loading s then false else loading (ui w).
Proof.
  destruct s as [[| |]|[v|v|]]; simpl.
  - open_world w. exec. destruct ses; exec; [|reflexivity].
    repeat branch; try reflexivity.
    destruct (Users.role data =? "admin"); reflexivity.
  - run_all w; reflexivity.
  - run_all w; reflexivity.
  - open_world w. reflexivity.
  - open_world w. reflexivity.
  - run_all w; reflexivity.
Qed.

(** *** Names and labels *)

Lemma has_space_append (s1 s2 : string) :
  has_space (String.append s1 (String.append " " s2)) = true.
Proof.
  induction s1 as [|c s1 IH]; simpl.
  - reflexivity.
  - simpl in IH. rewrite IH. apply orb_true_r.
Qed.

Lemma coffee_label_offered (t : string) :
  coffee_label t <> None <-> offered t.
Proof.
  unfold coffee_label, offered. split.
  - destruct (find _ coffeeTypes) as [o|] eqn:E; [intros _|intros H; now elim H].
    apply find_some in E. destruct E as [Hin Hv].
    apply String.eqb_eq in Hv. subst t. now apply in_map.
  - simpl. intros [<-|[<-|[<-|[<-|[<-|[]]]]]]; discriminate.
Qed.

(** *** Well-formed rows *)

Lemma listActivePrices_rows (P : Prices.row -> Prop) (s : Store) :
  Forall P (coffee_prices s) ->
  Forall P (map Prices.columns (listActivePrices s)).
Proof.
  rewrite !Forall_forall. intros H r Hr.
  apply in_map_iff in Hr. destruct Hr as [p [<- Hp]].
  apply listActivePrices_In in Hp. destruct Hp as [r [-> [Hin _]]].
  now apply H.
Qed.

Lemma deactivate_rows (pid : nat) (ps : list Prices.row) :
  Forall row_ok ps -> Forall row_ok (deactivate pid ps).
Proof.
  rewrite !Forall_forall. intros H r Hr.
  apply in_map_iff in Hr. destruct Hr as [p [<- Hp]].
  destruct (Prices.price_id p =? pid)%nat; [|now apply H].
  exact (H p Hp).
Qed.

Lemma store_after_submit_rows (w : World) :
  form_ok (newPrice (ui w)) ->
  Forall row_ok (coffee_prices (store w)) ->
  Forall row_ok (coffee_prices (store_after_submit w)).
Proof.
  intros Hf Hs. unfold store_after_submit.
  assert (H1 : forall u, Forall row_ok
                 (coffee_prices (add_price (store w) (inserted_row w u)))).
  { intros u. simpl. apply Forall_app. split; [exact Hs|].
    constructor; [exact Hf|constructor]. }
  destruct (user (ui w)) as [u|]; [|exact Hs].
  destruct (fails (reply w 0)); [exact Hs|]. cbv zeta.
  destruct (currentPrice (ui w)) as [cp|]; [|apply H1].
  destruct (fails (reply w 1)); [apply H1|].
  destruct (fails (reply w 2)); simpl; apply deactivate_rows, H1.
Qed.

(** What [handleSubmit] can leave in the form and in the two lists. *)
Lemma handleSubmit_ui_cases (w : World) :
  user (ui (world (handleSubmit w))) = user (ui w)
  /\ (newPrice (ui (world (handleSubmit w))) = newPrice (ui w)
      \/ newPrice (ui (world (handleSubmit w))) = default_form)
  /\ (currentPrices (ui (world (handleSubmit w))) = currentPrices (ui w)
      \/ currentPrices (ui (world (handleSubmit w)))
         = listActivePrices (store (world (handleSubmit w))))
  /\ (priceHistory (ui (world (handleSubmit w))) = priceHistory (ui w)
      \/ priceHistory (ui (world (handleSubmit w)))
         = listPriceHistory (store (world (handleSubmit w)))).
Proof.
  run_all w; auto.
Qed.

Lemma default_form_ok : form_ok default_form.
Proof. split; [reflexivity|]. unfold offered. simpl. auto. Qed.

Lemma step_well_formed (s : Step) (w : World) :
  from_dropdown s -> well_formed w -> well_formed (world (step s w)).
Proof.
  intros Hs [Hf [Hst Hcp]].
  destruct s as [t|a].
  - destruct t; simpl.
    + revert Hf Hst Hcp. unfold well_formed.
      open_world w. exec. destruct ses; exec; [|auto].
      repeat branch; auto.
      destruct (Users.role data =? "admin"); auto.
    + revert Hf Hst Hcp. unfold well_formed. run_all w; auto.
      intros Hf Hst _. split; [exact Hf|]. split; [exact Hst|].
      now apply listActivePrices_rows.
    + revert Hf Hst Hcp. unfold well_formed. run_all w; auto.
  - destruct a as [v|v|]; simpl in *.
    + revert Hf Hst Hcp. unfold well_formed, form_ok.
      open_world w. simpl. intros [Hc _] Hst Hcp. auto.
    + revert Hf Hst Hcp. unfold well_formed, form_ok.
      open_world w. simpl. auto.
    + destruct (handleSubmit_ui_cases w) as [_ [Hn [Hc _]]].
      assert (Hst' : Forall row_ok
                       (coffee_prices (store (world (handleSubmit w))))).
      { rewrite handleSubmit_store. now apply store_after_submit_rows. }
      split; [|split].
      * destruct Hn as [-> | ->]; [exact Hf|apply default_form_ok].
      * exact Hst'.
      * destruct Hc as [-> | ->]; [exact Hcp|].
        now apply listActivePrices_rows.
Qed.

(** *** Stores that only grow *)

Lemma set_inactive_twice (r : Prices.row) :
  set_inactive (set_inactive r) = set_inactive r.
Proof. reflexivity. Qed.

Lemma superseded_trans (a b c : Prices.row) :
  superseded a b -> superseded b c -> superseded a c.
Proof.
  unfold superseded. intros [-> | ->] [-> | ->]; auto.
Qed.

Lemma Forall2_superseded_refl (l : list Prices.row) : Forall2 superseded l l.
Proof. induction l; constructor; auto. now left. Qed.

Lemma Forall2_superseded_trans (l1 l2 l3 : list Prices.row) :
  Forall2 superseded l1 l2 -> Forall2 superseded l2 l3 ->
  Forall2 superseded l1 l3.
Proof.
  intros H. revert l3. induction H as [|a b l1 l2 Hab _ IH]; intros l3 H3.
  - inversion H3. constructor.
  - inversion H3 as [|? c ? l3' Hbc Hrest]; subst. constructor.
    + eapply superseded_trans; eauto.
    + now apply IH.
Qed.

Lemma grows_refl (s : Store) : grows s s.
Proof.
  split; [reflexivity|]. split.
  - exists []. now rewrite app_nil_r.
  - exists (coffee_prices s), []. split; [now rewrite app_nil_r|].
    apply Forall2_superseded_refl.
Qed.

Lemma grows_trans (s1 s2 s3 : Store) :
  grows s1 s2 -> grows s2 s3 -> grows s1 s3.
Proof.
  intros [Hu1 [[hs1 Hh1] [o1 [n1 [Hp1 HF1]]]]]
         [Hu2 [[hs2 Hh2] [o2 [n2 [Hp2 HF2]]]]].
  split; [congruence|]. split.
  - exists (hs1 ++ hs2). now rewrite Hh2, Hh1, app_assoc.
  - rewrite Hp1 in HF2.
    apply Forall2_app_inv_l in HF2.
    destruct HF2 as [o2a [o2b [Ha [Hb ->]]]].
    exists o2a, (o2b ++ n2). split.
    + now rewrite Hp2, app_assoc.
    + eapply Forall2_superseded_trans; eauto.
Qed.

Lemma grows_add_price (s : Store) (r : Prices.row) : grows s (add_price s r).
Proof.
  split; [reflexivity|]. split.
  - exists []. simpl. now rewrite app_nil_r.
  - exists (coffee_prices s), [r]. split; [reflexivity|].
    apply Forall2_superseded_refl.
Qed.

Lemma grows_deactivate_price (s : Store) (pid : nat) :
  grows s (deactivate_price s pid).
Proof.
  split; [reflexivity|]. split.
  - exists []. simpl. now rewrite app_nil_r.
  - exists (deactivate pid (coffee_prices s)), []. simpl.
    split; [now rewrite app_nil_r|].
    unfold deactivate. induction (coffee_prices s) as [|r l IH]; simpl.
    + constructor.
    + constructor; [|exact IH].
      destruct (Prices.price_id r =? pid)%nat; [now right|now left].
Qed.

Lemma grows_add_history (s : Store) (h : History.row) :
  grows s (add_history s h).
Proof.
  split; [reflexivity|]. split.
  - now exists [h].
  - exists (coffee_prices s), []. simpl. split; [now rewrite app_nil_r|].
    apply Forall2_superseded_refl.
Qed.

Lemma grows_after_submit (w : World) : grows (store w) (store_after_submit w).
Proof.
  unfold store_after_submit.
  destruct (user (ui w)) as [u|]; [|apply grows_refl].
  destruct (fails (reply w 0)); [apply grows_refl|]. cbv zeta.
  destruct (currentPrice (ui w)) as [cp|]; [|apply grows_add_price].
  destruct (fails (reply w 1)); [apply grows_add_price|].
  eapply grows_trans; [apply grows_add_price|].
  destruct (fails (reply w 2)).
  - apply grows_deactivate_price.
  - eapply grows_trans; [apply grows_deactivate_price|apply grows_add_history].
Qed.

Lemma step_grows (s : Step) (w : World) : grows (store w) (store (world (step s w))).
Proof.
  destruct s as [t|[v|v|]]; simpl.
  - destruct (task_reads_only t w) as [-> _]. apply grows_refl.
  - open_world w. apply grows_refl.
  - open_world w. apply grows_refl.
  - rewrite handleSubmit_store. apply grows_after_submit.
Qed.

(** *** The order and the keys of the active-price read *)

Section OrderByAdjacent.
Variable A : Type.
Variable le : A -> A -> bool.
Hypothesis le_total : forall a b, le a b = false -> le b a = true.

Lemma insert_by_HdRel (y x : A) (l : list A) :
  le y x = true ->
  HdRel (fun a b => le a b = true) y l ->
  HdRel (fun a b => le a b = true) y (insert_by le x l).
Proof.
  intros Hyx Hy. destruct l as [|z l]; simpl.
  - now constructor.
  - destruct (le x z); constructor; [exact Hyx|].
    now inversion Hy.
Qed.

Lemma insert_by_adjacent (x : A) (l : list A) :
  Sorted (fun a b => le a b = true) l ->
  Sorted (fun a b => le a b = true) (insert_by le x l).
Proof.
  induction 1 as [|y l Hs IH Hy]; simpl.
  - constructor; constructor.
  - destruct (le x y) eqn:E.
    + constructor; [now constructor|now constructor].
    + constructor; [exact IH|].
      apply insert_by_HdRel; [now apply le_total|exact Hy].
Qed.

Lemma order_by_adjacent (l : list A) :
  Sorted (fun a b => le a b = true) (order_by le l).
Proof.
  induction l as [|x l IH]; simpl.
  - constructor.
  - now apply insert_by_adjacent.
Qed.
End OrderByAdjacent.

Lemma listActivePrices_columns (s : Store) :
  map Prices.columns (listActivePrices s)
  = order_by by_coffee_type (filter Prices.is_active (coffee_prices s)).
Proof.
  unfold listActivePrices. rewrite map_map. simpl. apply map_id.
Qed.

Lemma active_types_NoDup (ps : list Prices.row) :
  (forall t, count_active t ps <= 1) ->
  NoDup (map Prices.coffee_type (filter Prices.is_active ps)).
Proof.
  induction ps as [|r ps IH]; intros H; simpl.
  - constructor.
  - assert (Hps : forall t, count_active t ps <= 1).
    { intros t. specialize (H t). unfold count_active in *. simpl in H.
      destruct (active_of t r); simpl in H; lia. }
    destruct (Prices.is_active r) eqn:Ha; [|now apply IH].
    simpl. constructor; [|now apply IH].
    intros Hin. apply in_map_iff in Hin. destruct Hin as [r' [Ht Hr']].
    apply filter_In in Hr'. destruct Hr' as [Hr' Ha'].
    specialize (H (Prices.coffee_type r)). unfold count_active in H.
    simpl in H. unfold active_of at 1 in H.
    rewrite Ha, String.eqb_refl in H. simpl in H.
    assert (1 <= count_active (Prices.coffee_type r) ps).
    { apply count_active_pos with r'; [exact Hr'|].
      unfold active_of. rewrite Ha'. simpl. now apply String.eqb_eq. }
    unfold count_active in *. lia.
Qed.

(** *** A successful submit, seen from the store *)

Lemma count_after_success (w : World) (u : Users.row) (t' : string) :
  at_most_one_active (store w) ->
  in_sync w ->
  user (ui w) = Some u ->
  fails (reply w 0) = false ->
  (forall cp, currentPrice (ui w) = Some cp ->
              fails (reply w 1) = false /\ fails (reply w 2) = false) ->
  count_active t' (coffee_prices (store_after_submit w))
  = if Form.coffee_type (newPrice (ui w)) =? t' then 1
    else count_active t'
           (coffee_prices
              match currentPrice (ui w) with
              | Some cp => deactivate_price (store w)
                             (Prices.price_id (Prices.columns cp))
              | None => store w
              end).
Proof.
  intros Hinv Hsync Hu H0 Hcp.
  unfold store_after_submit. rewrite Hu, H0. cbv zeta.
  destruct (currentPrice (ui w)) as [cp|] eqn:Ecp.
  - destruct (Hcp cp eq_refl) as [-> ->]. simpl.
    destruct (currentPrice_in_store w cp Hsync Ecp) as [Hin Hact].
    rewrite superseded_count
      with (t := Form.coffee_type (newPrice (ui w))); auto.
    rewrite active_of_inserted.
    destruct (Form.coffee_type (newPrice (ui w)) =? t'); lia.
  - simpl. rewrite count_active_snoc, active_of_inserted.
    destruct (String.eqb_spec (Form.coffee_type (newPrice (ui w))) t')
      as [<-|Hne]; [|lia].
    now rewrite (currentPrice_none_in_store w Hsync Ecp).
Qed.

Lemma success_keeps_invariant (w : World) (u : Users.row) :
  at_most_one_active (store w) ->
  in_sync w ->
  user (ui w) = Some u ->
  fails (reply w 0) = false ->
  (forall cp, currentPrice (ui w) = Some cp ->
              fails (reply w 1) = false /\ fails (reply w 2) = false) ->
  at_most_one_active (store_after_submit w).
Proof.
  intros Hinv Hsync Hu H0 Hcp t'.
  rewrite (count_after_success w u t' Hinv Hsync Hu H0 Hcp).
  destruct (Form.coffee_type (newPrice (ui w)) =? t'); [lia|].
  destruct (currentPrice (ui w)); simpl.
  - etransitivity; [apply count_active_deactivate_le | apply Hinv].
  - apply Hinv.
Qed.

Lemma inserted_row_stays (w : World) (u : Users.row) :
  in_sync w ->
  user (ui w) = Some u ->
  fails (reply w 0) = false ->
  In (inserted_row w u) (coffee_prices (store_after_submit w)).
Proof.
  intros Hsync Hu H0. unfold store_after_submit. rewrite Hu, H0. cbv zeta.
  assert (H1 : In (inserted_row w u)
                  (coffee_prices (add_price (store w) (inserted_row w u)))).
  { simpl. apply in_or_app. right. now left. }
  destruct (currentPrice (ui w)) as [cp|] eqn:Ecp; [|exact H1].
  destruct (fails (reply w 1)); [exact H1|].
  destruct (currentPrice_in_store w cp Hsync Ecp) as [Hin _].
  assert (H2 : In (inserted_row w u)
                  (deactivate (Prices.price_id (Prices.columns cp))
                     (coffee_prices (store w) ++ [inserted_row w u]))).
  { rewrite deactivate_other.
    - apply in_or_app. right. now left.
    - apply fresh_price_id_gt in Hin. simpl. lia. }
  destruct (fails (reply w 2)); exact H2.
Qed.

(** The read-back of a successful submit was served. *)
Lemma handleSubmit_readback (w : World) :
  succeeded (handleSubmit w) = true ->
  In (SelectActivePrices, true) (queries (trace (handleSubmit w))) ->
  in_sync (world (handleSubmit w)).
Proof.
  unfold in_sync, succeeded.
  run_all w; simpl; intros; try discriminate; try reflexivity;
    intuition congruence.
Qed.


(** *** A refused deactivation *)

Lemma deactivation_refused_inv (w : World) (pid : nat) :
  In (DeactivatePrice pid, false) (queries (trace (handleSubmit w))) ->
  exists u cp,
    user (ui w) = Some u
    /\ fails (reply w 0) = false
    /\ currentPrice (ui w) = Some cp
    /\ Prices.price_id (Prices.columns cp) = pid
    /\ fails (reply w 1) = true
    /\ write_failed (handleSubmit w) = true.
Proof.
  intros Hin.
  assert (Hw : In (DeactivatePrice pid, false)
                  (writes (trace (handleSubmit w)))).
  { apply writes_in_queries. now split. }
  unfold write_failed. rewrite handleSubmit_writes in *.
  unfold writes_of_submit in *.
  destruct (user (ui w)) as [u|]; [|contradiction].
  destruct (fails (reply w 0)).
  { destruct Hw as [E|[]]. discriminate. }
  destruct (currentPrice (ui w)) as [cp|].
  2:{ destruct Hw as [E|[]]. discriminate. }
  destruct (fails (reply w 1)).
  - exists u, cp. destruct Hw as [E|[E|[]]]; [discriminate|].
    inversion E. now repeat split.
  - destruct Hw as [E|[E|[E|[]]]]; discriminate.
Qed.

(* ------------------------------------------------------------------ *)
(** ** The price-update workflow *)

(** C1 (as amended): starting from a store with at most one active record
    per coffee type, and with the loaded active-price set equal to what
    the store holds, every successful [handleSubmit] leaves exactly one
    active record of the submitted coffee type, and at most one active
    record of every coffee type. *)
Theorem submit_in_sync_one_active (w : World) :
  at_most_one_active (store w) ->
  in_sync w ->
  succeeded (handleSubmit w) = true ->
  count_active (Form.coffee_type (newPrice (ui w)))
               (coffee_prices (store (world (handleSubmit w)))) = 1
  /\ at_most_one_active (store (world (handleSubmit w))).
Proof.
  intros Hinv Hsync Hok.
  destruct (handleSubmit_succeeded_inv w Hok) as [u [Hu [H0 Hcp]]].
  rewrite handleSubmit_store. unfold store_after_submit. rewrite Hu, H0.
  set (t := Form.coffee_type (newPrice (ui w))).
  assert (Hall : forall t',
    count_active t' (coffee_prices
      match currentPrice (ui w) with
      | Some cp =>
          if fails (reply w 1) then add_price (store w) (inserted_row w u)
          else
            let s2 := deactivate_price (add_price (store w) (inserted_row w u))
                        (Prices.price_id (Prices.columns cp)) in
            if fails (reply w 2) then s2
            else add_history s2 (new_history_row s2 (stamp (reply w 2))
                                   (history_record w u cp))
      | None => add_price (store w) (inserted_row w u)
      end)
    = if String.eqb t t' then 1 else
        count_active t' (coffee_prices
          match currentPrice (ui w) with
          | Some cp => deactivate_price (store w) (Prices.price_id (Prices.columns cp))
          | None => store w
          end)).
  { intros t'. destruct (currentPrice (ui w)) as [cp|] eqn:Ecp.
    - destruct (Hcp cp eq_refl) as [-> ->]. simpl.
      destruct (currentPrice_in_store w cp Hsync Ecp) as [Hin Hact].
      rewrite superseded_count with (t := t); auto.
      rewrite active_of_inserted. fold t.
      destruct (String.eqb t t'); lia.
    - simpl. rewrite count_active_snoc, active_of_inserted. fold t.
      destruct (String.eqb_spec t t') as [<-|Hne]; [|lia].
      unfold t. rewrite (currentPrice_none_in_store w Hsync Ecp). reflexivity. }
  split.
  - rewrite Hall. now rewrite String.eqb_refl.
  - intros t'. rewrite Hall. destruct (String.eqb t t'); [lia|].
    destruct (currentPrice (ui w)); simpl.
    + etransitivity; [apply count_active_deactivate_le | apply Hinv].
    + apply Hinv.
Qed.

(** C1 as worded fails when the loaded set is stale: the store holds an
    active raw price, the page never loaded it, and the submit succeeds
    leaving two active raw prices. *)
Lemma stale_page_two_active : ~ one_active_after_submit stale_page.
Proof.
  unfold one_active_after_submit. intros H.
  assert (Hinv : at_most_one_active (store stale_page))
    by exact shop_at_most_one_active.
  assert (Hok : succeeded (handleSubmit stale_page) = true)
    by (vm_compute; reflexivity).
  specialize (H Hinv Hok). vm_compute in H. discriminate.
Qed.

(** The synchronised page of the scenario meets every hypothesis above. *)
Lemma submit_in_sync_one_active_witness :
  at_most_one_active (store fresh_page)
  /\ in_sync fresh_page
  /\ succeeded (handleSubmit fresh_page) = true
  /\ count_active "raw" (coffee_prices (store (world (handleSubmit fresh_page)))) = 1
  /\ at_most_one_active (store (world (handleSubmit fresh_page))).
Proof.
  assert (Hinv : at_most_one_active (store fresh_page))
    by exact shop_at_most_one_active.
  assert (Hsync : in_sync fresh_page) by reflexivity.
  assert (Hok : succeeded (handleSubmit fresh_page) = true) by reflexivity.
  split; [exact Hinv|]. split; [exact Hsync|]. split; [exact Hok|].
  exact (submit_in_sync_one_active fresh_page Hinv Hsync Hok).
Defined.

(** C2: when the loaded active-price set holds a record [cp] of the
    submitted coffee type, a successful [handleSubmit] sends exactly three
    writes in this order - the insert of the new price, the update that
    sets [is_active] to false on [cp]'s key, the insert of one history
    record - after which every row with [cp]'s key is inactive and the
    history table has grown by exactly one row, whose [old_price] is [cp]'s
    [price_per_kg], whose [new_price] is the submitted price, whose
    [changed_by] is the admin stored in [user] and whose [reason] is "Price update".
    The prices table keeps every row it had, in place and with every
    column as it was except that [is_active] is false on the rows with
    [cp]'s key, followed by the one new row. *)
Theorem submit_supersedes_prior (w : World) (cp : Prices.joined) :
  currentPrice (ui w) = Some cp ->
  succeeded (handleSubmit w) = true ->
  exists (u : Users.row) (h : History.row),
    user (ui w) = Some u
    /\ writes (trace (handleSubmit w))
       = [(InsertPrice (newPrice (ui w)) (Users.id u) true, true);
          (DeactivatePrice (Prices.price_id (Prices.columns cp)), true);
          (InsertHistory
             (HistoryRecord.mk
                (fresh_price_id (coffee_prices (store w)))
                (Form.coffee_type (newPrice (ui w)))
                (Prices.price_per_kg (Prices.columns cp))
                (Form.price_per_kg (newPrice (ui w)))
                (Users.id u)
                "Price update"), true)]
    /\ (forall r, In r (coffee_prices (store (world (handleSubmit w)))) ->
                  Prices.price_id r = Prices.price_id (Prices.columns cp) ->
                  Prices.is_active r = false)
    /\ coffee_price_history (store (world (handleSubmit w)))
       = coffee_price_history (store w) ++ [h]
    /\ History.old_price h = Prices.price_per_kg (Prices.columns cp)
    /\ History.new_price h = Form.price_per_kg (newPrice (ui w))
    /\ History.changed_by h = Users.id u
    /\ History.reason h = "Price update"
    /\ History.coffee_type h = Form.coffee_type (newPrice (ui w))
    /\ History.price_id h = fresh_price_id (coffee_prices (store w))
    /\ coffee_prices (store (world (handleSubmit w)))
       = map (fun r =>
                Prices.mk (Prices.price_id r) (Prices.coffee_type r)
                          (Prices.price_per_kg r) (Prices.currency r)
                          (if (Prices.price_id r
                               =? Prices.price_id (Prices.columns cp))%nat
                           then false else Prices.is_active r)
                          (Prices.created_by r) (Prices.updated_at r))
             (coffee_prices (store w)
              ++ [Prices.mk (fresh_price_id (coffee_prices (store w)))
                            (Form.coffee_type (newPrice (ui w)))
                            (Form.price_per_kg (newPrice (ui w)))
                            (Form.currency (newPrice (ui w)))
                            true (Users.id u) (stamp (reply w 0))])
    /\ users (store (world (handleSubmit w))) = users (store w).
Proof.
  intros Hcp Hok.
  destruct (handleSubmit_succeeded_inv w Hok) as [u [Hu [H0 H12]]].
  destruct (H12 cp Hcp) as [H1 H2].
  rewrite handleSubmit_writes, handleSubmit_store.
  unfold writes_of_submit, store_after_submit.
  rewrite Hu, H0, Hcp, H1, H2. cbv zeta.
  set (s2 := deactivate_price _ _).
  exists u, (new_history_row s2 (stamp (reply w 2)) (history_record w u cp)).
  split; [reflexivity|]. split; [reflexivity|]. split.
  { intros r Hr Hid. simpl in Hr. eapply deactivate_inactive; eauto. }
  do 7 (split; [reflexivity|]).
  split; [|reflexivity].
  unfold s2. simpl. unfold deactivate. apply map_ext.
  intros r. destruct r as [pid ty pr cu ac cb up]. simpl.
  now destruct (pid =? Prices.price_id (Prices.columns cp))%nat.
Qed.

(** The synchronised page of the scenario holds the raw price of 150.00
    and supersedes it: the old row stays, inactive, before the new one. *)
Lemma submit_supersedes_prior_witness :
  exists (u : Users.row) (h : History.row),
    user (ui fresh_page) = Some u
    /\ writes (trace (handleSubmit fresh_page))
       = [(InsertPrice (Form.mk "raw" "160.00" "PHP") (Users.id u) true, true);
          (DeactivatePrice 1, true);
          (InsertHistory
             (HistoryRecord.mk 2 "raw" "150.00" "160.00" (Users.id u)
                               "Price update"), true)]
    /\ (forall r, In r (coffee_prices (store (world (handleSubmit fresh_page)))) ->
                  Prices.price_id r = 1 -> Prices.is_active r = false)
    /\ coffee_price_history (store (world (handleSubmit fresh_page))) = [] ++ [h]
    /\ History.old_price h = "150.00"
    /\ History.new_price h = "160.00"
    /\ History.changed_by h = Users.id u
    /\ History.reason h = "Price update"
    /\ History.coffee_type h = "raw"
    /\ History.price_id h = 2
    /\ coffee_prices (store (world (handleSubmit fresh_page)))
       = [Prices.mk 1 "raw" "150.00" "PHP" false "u-admin" 10%Z;
          Prices.mk 2 "raw" "160.00" "PHP" true (Users.id u) 20%Z]
    /\ users (store (world (handleSubmit fresh_page))) = [admin; farmer].
Proof.
  exact (submit_supersedes_prior fresh_page
           (join_creator (users shop) raw150) eq_refl eq_refl).
Defined.

(** C3: when the loaded active-price set holds no record of the submitted
    coffee type, [handleSubmit] adds no history row and sends no
    deactivation; the only write it sends is the insert of the new price,
    and when that insert is served the prices table grows by that one
    active row. *)
Theorem submit_first_price (w : World) :
  currentPrice (ui w) = None ->
  coffee_price_history (store (world (handleSubmit w)))
  = coffee_price_history (store w)
  /\ (forall pid, ~ issued (DeactivatePrice pid) (handleSubmit w))
  /\ (forall h, ~ issued (InsertHistory h) (handleSubmit w))
  /\ writes (trace (handleSubmit w))
     = match user (ui w) with
       | Some u => [(InsertPrice (newPrice (ui w)) (Users.id u) true,
                     negb (fails (reply w 0)))]
       | None => []
       end
  /\ (succeeded (handleSubmit w) = true ->
      exists u,
        user (ui w) = Some u
        /\ coffee_prices (store (world (handleSubmit w)))
           = coffee_prices (store w)
             ++ [Prices.mk (fresh_price_id (coffee_prices (store w)))
                           (Form.coffee_type (newPrice (ui w)))
                           (Form.price_per_kg (newPrice (ui w)))
                           (Form.currency (newPrice (ui w)))
                           true (Users.id u) (stamp (reply w 0))]).
Proof.
  intros Hcp.
  assert (Hw : writes (trace (handleSubmit w))
     = match user (ui w) with
       | Some u => [(InsertPrice (newPrice (ui w)) (Users.id u) true,
                     negb (fails (reply w 0)))]
       | None => []
       end).
  { rewrite handleSubmit_writes. unfold writes_of_submit. rewrite Hcp.
    destruct (user (ui w)); [|reflexivity].
    now destruct (fails (reply w 0)). }
  assert (Hnone : forall q, is_write q = true ->
            (forall f c a, q <> InsertPrice f c a) ->
            ~ issued q (handleSubmit w)).
  { intros q Hq Hne [ok Hin].
    assert (Hin' : In (q, ok) (writes (trace (handleSubmit w)))).
    { unfold writes. apply filter_In. now split. }
    rewrite Hw in Hin'. destruct (user (ui w)); simpl in Hin'.
    - destruct Hin' as [E|[]]. inversion E. eapply Hne; eauto.
    - contradiction. }
  split.
  { rewrite handleSubmit_store. unfold store_after_submit. rewrite Hcp.
    destruct (user (ui w)); [|reflexivity].
    now destruct (fails (reply w 0)). }
  split; [intros pid; apply Hnone; [reflexivity|discriminate]|].
  split; [intros h; apply Hnone; [reflexivity|discriminate]|].
  split; [exact Hw|].
  intros Hok.
  destruct (handleSubmit_succeeded_inv w Hok) as [u [Hu [H0 _]]].
  exists u. split; [exact Hu|].
  rewrite handleSubmit_store. unfold store_after_submit.
  now rewrite Hu, H0, Hcp.
Qed.

(** The admin sets the first raw price of a store that has none. *)
Lemma submit_first_price_witness :
  coffee_price_history (store (world (handleSubmit first_page))) = []
  /\ (forall pid, ~ issued (DeactivatePrice pid) (handleSubmit first_page))
  /\ (forall h, ~ issued (InsertHistory h) (handleSubmit first_page))
  /\ writes (trace (handleSubmit first_page))
     = [(InsertPrice (Form.mk "raw" "160.00" "PHP") "u-admin" true, true)]
  /\ (succeeded (handleSubmit first_page) = true ->
      exists u,
        user (ui first_page) = Some u
        /\ coffee_prices (store (world (handleSubmit first_page)))
           = [] ++ [Prices.mk 1 "raw" "160.00" "PHP" true (Users.id u) 20%Z]).
Proof.
  exact (submit_first_price first_page eq_refl).
Defined.

(** C10: with no user stored in the state, [handleSubmit] fails on
    [user.id] before any request is built: the store is untouched, no round
    trip is made, the one notice shown is the generic failure notice, and
    the loading flag ends cleared. *)
Theorem submit_without_user (w : World) :
  user (ui w) = None ->
  handleSubmit w
  = mkRun (Return tt)
          (mkWorld (store w) (session w) (replies w) (sent w)
                   (mkState None (priceHistory (ui w)) (currentPrices (ui w))
                            false (newPrice (ui w))))
          [PreventDefault;
           Console LogLevel "Submitting new price...";
           Console ErrorLevel "Error updating price:";
           Toast Failure "Failed to update price"]
  /\ store (world (handleSubmit w)) = store w
  /\ queries (trace (handleSubmit w)) = []
  /\ notices (trace (handleSubmit w)) = [(Failure, "Failed to update price")]
  /\ loading (ui (world (handleSubmit w))) = false.
Proof.
  intros Hu.
  assert (E : handleSubmit w
  = mkRun (Return tt)
          (mkWorld (store w) (session w) (replies w) (sent w)
                   (mkState None (priceHistory (ui w)) (currentPrices (ui w))
                            false (newPrice (ui w))))
          [PreventDefault;
           Console LogLevel "Submitting new price...";
           Console ErrorLevel "Error updating price:";
           Toast Failure "Failed to update price"]).
  { open_world w. simpl in Hu. subst. reflexivity. }
  rewrite E. repeat split.
Qed.

(** The lookup of [checkUser] was refused, so the page shows the form with
    [user] still null; the admin submits. *)
Lemma submit_without_user_witness :
  user (ui unchecked_page) = None
  /\ store (world (handleSubmit unchecked_page)) = shop
  /\ queries (trace (handleSubmit unchecked_page)) = []
  /\ notices (trace (handleSubmit unchecked_page))
     = [(Failure, "Failed to update price")]
  /\ loading (ui (world (handleSubmit unchecked_page))) = false.
Proof.
  split; [reflexivity|].
  exact (proj2 (submit_without_user unchecked_page eq_refl)).
Defined.

(* ------------------------------------------------------------------ *)
(** ** The access gate *)

(** C5: [checkUser] asks the identity provider for the principal.  With no
    principal it redirects to the login route and does nothing else; with a
    principal whose user row has a role other than "admin" it shows the
    notice "Admin access required", redirects to [/dashboard] and leaves
    [user] as it was; with a principal whose row has role "admin" it stores
    that row in [user], without notice or redirect. *)
Theorem checkUser_gate (w : World) :
  (session w = None ->
     trace (checkUser w) = [AuthGetUser; Navigate "/login"]
     /\ world (checkUser w) = w)
  /\ (forall uid data,
        session w = Some uid ->
        fails (reply w 0) = false ->
        single_user (store w) uid = Data data ->
        Users.role data <> "admin" ->
        notices (trace (checkUser w)) = [(Failure, "Admin access required")]
        /\ redirects (trace (checkUser w)) = ["/dashboard"]
        /\ ui (world (checkUser w)) = ui w)
  /\ (forall uid data,
        session w = Some uid ->
        fails (reply w 0) = false ->
        single_user (store w) uid = Data data ->
        Users.role data = "admin" ->
        user (ui (world (checkUser w))) = Some data
        /\ notices (trace (checkUser w)) = []
        /\ redirects (trace (checkUser w)) = []).
Proof.
  split; [|split].
  - intros Hs. rewrite (checkUser_anonymous w Hs). now split.
  - intros uid data Hs H0 H1 Hrole.
    rewrite (checkUser_row w uid data Hs H0 H1).
    apply String.eqb_neq in Hrole. rewrite Hrole. repeat split.
  - intros uid data Hs H0 H1 Hrole.
    rewrite (checkUser_row w uid data Hs H0 H1).
    apply String.eqb_eq in Hrole. rewrite Hrole. repeat split.
Qed.

(** The three principals of the scenario: nobody, the farmer, the admin. *)
Lemma checkUser_gate_witness :
  (trace (checkUser (boot shop None served)) = [AuthGetUser; Navigate "/login"]
   /\ world (checkUser (boot shop None served)) = boot shop None served)
  /\ (notices (trace (checkUser (boot shop (Some "u-farmer") served)))
      = [(Failure, "Admin access required")]
      /\ redirects (trace (checkUser (boot shop (Some "u-farmer") served)))
         = ["/dashboard"]
      /\ ui (world (checkUser (boot shop (Some "u-farmer") served)))
         = initial_state)
  /\ (user (ui (world (checkUser (boot shop (Some "u-admin") served))))
      = Some admin
      /\ notices (trace (checkUser (boot shop (Some "u-admin") served))) = []
      /\ redirects (trace (checkUser (boot shop (Some "u-admin") served))) = []).
Proof.
  split; [|split].
  - exact (proj1 (checkUser_gate (boot shop None served)) eq_refl).
  - refine (proj1 (proj2 (checkUser_gate (boot shop (Some "u-farmer") served)))
              "u-farmer" farmer eq_refl eq_refl eq_refl _).
    discriminate.
  - exact (proj2 (proj2 (checkUser_gate (boot shop (Some "u-admin") served)))
             "u-admin" admin eq_refl eq_refl eq_refl eq_refl).
Defined.

(** C6 (as amended): when a principal whose user row has a role other than
    "admin" loads the page and the row lookup is answered, then, in
    whatever order the three functions of the mount effect complete, the
    principal is shown "Admin access required" and redirected to
    [/dashboard] and is not stored in [user]; the active-price read and the
    price-history read are both sent to the store all the same, and each
    one that is served fills its list. *)
Theorem mount_non_admin (w : World) (order : list Task)
    (uid : UserId) (data : Users.row) :
  Permutation order mount_tasks ->
  session w = Some uid ->
  single_user (store w) uid = Data data ->
  Users.role data <> "admin" ->
  In (SelectUser uid, true) (queries (trace (run_tasks order w))) ->
  redirects (trace (run_tasks order w)) = ["/dashboard"]
  /\ In (Failure, "Admin access required") (notices (trace (run_tasks order w)))
  /\ user (ui (world (run_tasks order w))) = user (ui w)
  /\ issued SelectActivePrices (run_tasks order w)
  /\ issued SelectPriceHistory (run_tasks order w)
  /\ (In (SelectActivePrices, true) (queries (trace (run_tasks order w))) ->
      currentPrices (ui (world (run_tasks order w))) = listActivePrices (store w))
  /\ (In (SelectPriceHistory, true) (queries (trace (run_tasks order w))) ->
      priceHistory (ui (world (run_tasks order w))) = listPriceHistory (store w)).
Proof.
  intros HP Hs Hrow Hrole.
  apply String.eqb_neq in Hrole.
  apply mount_orders in HP.
  open_world w. simpl in Hs, Hrow. subst ses. unfold issued.
  simpl in HP.
  destruct HP as [<-|[<-|[<-|[<-|[<-|[<-|[]]]]]]]; exec;
    repeat (branch_with Hrow Hrole); simpl;
    intros Hq; repeat split; eauto; intuition congruence.
Qed.

(** C6 as worded fails: the farmer is redirected, and both reads are sent. *)
Lemma farmer_page_fetches : ~ non_admin_fetches_nothing farmer_opens.
Proof.
  intros H.
  destruct (H "u-farmer" farmer eq_refl eq_refl) as [_ [Hno _]].
  - discriminate.
  - apply Hno. exists true. simpl. auto.
Qed.

(** The farmer of the scenario, with the functions completing in the
    order they were started. *)
Lemma mount_non_admin_witness :
  redirects (trace (useEffect_mount farmer_opens)) = ["/dashboard"]
  /\ In (Failure, "Admin access required")
        (notices (trace (useEffect_mount farmer_opens)))
  /\ user (ui (world (useEffect_mount farmer_opens))) = None
  /\ issued SelectActivePrices (useEffect_mount farmer_opens)
  /\ issued SelectPriceHistory (useEffect_mount farmer_opens)
  /\ (In (SelectActivePrices, true)
         (queries (trace (useEffect_mount farmer_opens))) ->
      currentPrices (ui (world (useEffect_mount farmer_opens)))
      = listActivePrices shop)
  /\ (In (SelectPriceHistory, true)
         (queries (trace (useEffect_mount farmer_opens))) ->
      priceHistory (ui (world (useEffect_mount farmer_opens)))
      = listPriceHistory shop).
Proof.
  refine (mount_non_admin farmer_opens mount_tasks "u-farmer" farmer
            (Permutation_refl _) eq_refl eq_refl _ _).
  - discriminate.
  - simpl. auto.
Defined.

(* ------------------------------------------------------------------ *)
(** ** The two reads *)

(** C7 (as amended): neither read changes the store.  When its read is
    refused, [fetchPrices] leaves the whole component state as it was and
    shows "Failed to fetch current prices", and [fetchPriceHistory] leaves
    both lists as they were and shows "Failed to fetch price history".
    Only [fetchPriceHistory] clears the loading flag, whatever the outcome
    of its read; [fetchPrices] never changes the loading flag. *)
Theorem reads_on_failure (w : World) :
  store (world (fetchPrices w)) = store w
  /\ store (world (fetchPriceHistory w)) = store w
  /\ loading (ui (world (fetchPriceHistory w))) = false
  /\ loading (ui (world (fetchPrices w))) = loading (ui w)
  /\ (fails (reply w 0) = true ->
      ui (world (fetchPrices w)) = ui w
      /\ notices (trace (fetchPrices w))
         = [(Failure, "Failed to fetch current prices")]
      /\ priceHistory (ui (world (fetchPriceHistory w))) = priceHistory (ui w)
      /\ currentPrices (ui (world (fetchPriceHistory w))) = currentPrices (ui w)
      /\ notices (trace (fetchPriceHistory w))
         = [(Failure, "Failed to fetch price history")]).
Proof.
  destruct (fails (reply w 0)) eqn:E.
  - rewrite (fetchPrices_refused w E), (fetchPriceHistory_refused w E).
    simpl. repeat split.
  - rewrite (fetchPrices_served w E), (fetchPriceHistory_served w E).
    simpl. repeat (split; [reflexivity|]). discriminate.
Qed.

(** C7 as worded fails for [fetchPrices]: its read is refused while the
    page is opening, and the loading flag stays set. *)
Lemma fetchPrices_keeps_loading : ~ read_clears_loading fetchPrices opening_refused.
Proof.
  unfold read_clears_loading. simpl. discriminate.
Qed.

(** Both reads refused on the page that is opening. *)
Lemma reads_on_failure_witness :
  ui (world (fetchPrices opening_refused)) = initial_state
  /\ notices (trace (fetchPrices opening_refused))
     = [(Failure, "Failed to fetch current prices")]
  /\ priceHistory (ui (world (fetchPriceHistory opening_refused))) = []
  /\ currentPrices (ui (world (fetchPriceHistory opening_refused))) = []
  /\ notices (trace (fetchPriceHistory opening_refused))
     = [(Failure, "Failed to fetch price history")].
Proof.
  exact (proj2 (proj2 (proj2 (proj2 (reads_on_failure opening_refused)))) eq_refl).
Defined.

(** C4 (as amended): [fetchPriceHistory] makes one round trip, the select
    of the history table with the changer joined, ordered by [change_date]
    descending.  When it is served, the list shown is a rearrangement of
    all rows of the history table, each with the changer's names found in
    [users], in non-increasing order of [change_date]; the order is strict
    exactly when no two rows share a [change_date].  When it is refused the
    list shown is left as it was and the notice "Failed to fetch price
    history" is shown.  Either way a list in non-increasing order stays in
    non-increasing order. *)
Theorem fetchPriceHistory_ordered (w : World) :
  queries (trace (fetchPriceHistory w))
  = [(SelectPriceHistory, negb (fails (reply w 0)))]
  /\ issued SelectPriceHistory (fetchPriceHistory w)
  /\ (descending (priceHistory (ui w)) ->
      descending (priceHistory (ui (world (fetchPriceHistory w)))))
  /\ (fails (reply w 0) = true ->
      priceHistory (ui (world (fetchPriceHistory w))) = priceHistory (ui w)
      /\ notices (trace (fetchPriceHistory w))
         = [(Failure, "Failed to fetch price history")])
  /\ (fails (reply w 0) = false ->
      priceHistory (ui (world (fetchPriceHistory w))) = listPriceHistory (store w)
      /\ notices (trace (fetchPriceHistory w)) = []
      /\ Permutation (map History.columns (listPriceHistory (store w)))
                     (coffee_price_history (store w))
      /\ Forall (fun h => History.user h
                          = embed_person (users (store w))
                              (History.changed_by (History.columns h)))
                (listPriceHistory (store w))
      /\ descending (listPriceHistory (store w))
      /\ (strictly_descending (listPriceHistory (store w)) <->
          NoDup (map History.change_date (coffee_price_history (store w))))).
Proof.
  split; [|split; [|split; [|split]]].
  - destruct (fails (reply w 0)) eqn:E.
    + now rewrite (fetchPriceHistory_refused w E).
    + now rewrite (fetchPriceHistory_served w E).
  - destruct (fails (reply w 0)) eqn:E.
    + rewrite (fetchPriceHistory_refused w E). exists false. simpl. auto.
    + rewrite (fetchPriceHistory_served w E). exists true. simpl. auto.
  - intros Hd. destruct (fails (reply w 0)) eqn:E.
    + now rewrite (fetchPriceHistory_refused w E).
    + rewrite (fetchPriceHistory_served w E). simpl.
      apply listPriceHistory_descending.
  - intros E. rewrite (fetchPriceHistory_refused w E). now split.
  - intros E. rewrite (fetchPriceHistory_served w E). simpl.
    split; [reflexivity|]. split; [reflexivity|]. split.
    { rewrite listPriceHistory_columns. apply order_by_perm. }
    split.
    { unfold listPriceHistory. rewrite Forall_forall. intros h Hh.
      apply in_map_iff in Hh. destruct Hh as [r [<- _]]. reflexivity. }
    split; [apply listPriceHistory_descending|].
    split.
    + intros Hs. eapply Permutation_NoDup.
      * apply listPriceHistory_dates.
      * now apply strictly_descending_distinct.
    + intros Hnd. apply descending_distinct.
      * apply listPriceHistory_descending.
      * eapply Permutation_NoDup; [|exact Hnd].
        apply Permutation_sym, listPriceHistory_dates.
Qed.

(** C4 as worded fails on ties: two changes recorded at the same instant
    are shown one after the other, in no strict order. *)
Lemma tied_history_not_strict :
  ~ strictly_ordered_history (boot tied_shop (Some "u-admin") served).
Proof.
  unfold strictly_ordered_history, strictly_descending. simpl.
  intros H. inversion H as [|? ? _ Hall]. subst.
  inversion Hall as [|? ? Hlt _]. subst.
  unfold date_of in Hlt. simpl in Hlt. lia.
Qed.

(** Two changes recorded at different instants: the served read shows the
    later one first, in strict order; a second read, refused, leaves the
    two lines on display. *)
Lemma fetchPriceHistory_ordered_witness :
  priceHistory (ui (world (fetchPriceHistory
                             (boot dated_shop (Some "u-admin") served))))
  = [History.mkJoined fine_change (Some (mkPerson "Ana" "Reyes"));
     History.mkJoined raw_change (Some (mkPerson "Ana" "Reyes"))]
  /\ strictly_descending
       (priceHistory (ui (world (fetchPriceHistory
                                   (boot dated_shop (Some "u-admin") served)))))
  /\ priceHistory (ui (world (fetchPriceHistory history_shown)))
     = [History.mkJoined fine_change (Some (mkPerson "Ana" "Reyes"));
        History.mkJoined raw_change (Some (mkPerson "Ana" "Reyes"))]
  /\ notices (trace (fetchPriceHistory history_shown))
     = [(Failure, "Failed to fetch price history")]
  /\ queries (trace (fetchPriceHistory history_shown))
     = [(SelectPriceHistory, false)].
Proof.
  destruct (fetchPriceHistory_ordered (boot dated_shop (Some "u-admin") served))
    as [_ [_ [_ [_ Hserved]]]].
  destruct (Hserved eq_refl) as [Hlist [_ [_ [_ [_ Hstrict]]]]].
  destruct (fetchPriceHistory_ordered history_shown)
    as [Hq [_ [_ [Hrefused _]]]].
  destruct (Hrefused eq_refl) as [Hkept Hnotice].
  split; [exact Hlist|].
  split.
  - rewrite Hlist. apply Hstrict. simpl.
    constructor.
    + simpl. intros [E|[]]. discriminate.
    + constructor; [intros []|constructor].
  - split; [exact Hkept|]. split; [exact Hnotice|exact Hq].
Defined.

(* ------------------------------------------------------------------ *)
(** ** Failure and success of the price-update workflow *)

(** C8: when the store refuses a write of [handleSubmit], the run shows the
    one notice "Failed to update price", the refused write is the last
    round trip it makes (no later write, no refresh), the form and the
    lists stay as they were, and the store keeps what was written before:
    nothing when the insert was refused, the new active row when the
    deactivation was refused, the new row and the deactivation when the
    history insert was refused.  In particular, when the deactivation is
    refused and its target was the one active record of the submitted
    coffee type in the store, the store ends with two active records of
    that coffee type. *)
Theorem submit_write_failure (w : World) :
  write_failed (handleSubmit w) = true ->
  notices (trace (handleSubmit w)) = [(Failure, "Failed to update price")]
  /\ ui (world (handleSubmit w))
     = mkState (user (ui w)) (priceHistory (ui w)) (currentPrices (ui w))
               false (newPrice (ui w))
  /\ (exists u,
        user (ui w) = Some u
        /\ let ins := InsertPrice (newPrice (ui w)) (Users.id u) true in
           let s1 := add_price (store w) (inserted_row w u) in
           (queries (trace (handleSubmit w)) = [(ins, false)]
            /\ store (world (handleSubmit w)) = store w)
           \/ (exists cp,
                 currentPrice (ui w) = Some cp
                 /\ let pid := Prices.price_id (Prices.columns cp) in
                    (queries (trace (handleSubmit w))
                     = [(ins, true); (DeactivatePrice pid, false)]
                     /\ store (world (handleSubmit w)) = s1)
                    \/ (queries (trace (handleSubmit w))
                        = [(ins, true); (DeactivatePrice pid, true);
                           (InsertHistory (history_record w u cp), false)]
                        /\ store (world (handleSubmit w))
                           = deactivate_price s1 pid)))
  /\ (forall pid old,
        In (DeactivatePrice pid, false) (queries (trace (handleSubmit w))) ->
        at_most_one_active (store w) ->
        In old (coffee_prices (store w)) ->
        Prices.price_id old = pid ->
        active_of (Form.coffee_type (newPrice (ui w))) old = true ->
        count_active (Form.coffee_type (newPrice (ui w)))
                     (coffee_prices (store (world (handleSubmit w)))) = 2).
Proof.
  intros Hf.
  destruct (handleSubmit_write_failed w Hf) as [Hq [Hn Hui]].
  split; [exact Hn|]. split; [exact Hui|].
  rewrite Hq, handleSubmit_writes, handleSubmit_store.
  unfold write_failed in Hf. rewrite handleSubmit_writes in Hf.
  unfold writes_of_submit, store_after_submit in *.
  destruct (user (ui w)) as [u|]; [|discriminate].
  destruct (fails (reply w 0)).
  { split.
    - exists u. split; [reflexivity|]. left. now split.
    - intros pid old [E|[]]. discriminate. }
  destruct (currentPrice (ui w)) as [cp|]; [|discriminate].
  destruct (fails (reply w 1)).
  { split.
    - exists u. split; [reflexivity|]. right. exists cp.
      split; [reflexivity|]. left. now split.
    - intros pid old _ Hinv Hold _ Hact. simpl.
      rewrite count_active_snoc, active_of_inserted, String.eqb_refl.
      pose proof (Hinv (Form.coffee_type (newPrice (ui w)))).
      pose proof (count_active_pos _ _ _ Hold Hact). lia. }
  destruct (fails (reply w 2)); [|discriminate].
  split.
  - exists u. split; [reflexivity|]. right. exists cp.
    split; [reflexivity|]. right. now split.
  - intros pid old [E|[E|[E|[]]]]; discriminate.
Qed.

(** The deactivation of the scenario is refused: two raw prices stay active. *)
Lemma submit_write_failure_witness :
  write_failed (handleSubmit update_refused_page) = true
  /\ notices (trace (handleSubmit update_refused_page))
     = [(Failure, "Failed to update price")]
  /\ queries (trace (handleSubmit update_refused_page))
     = [(InsertPrice (Form.mk "raw" "160.00" "PHP") "u-admin" true, true);
        (DeactivatePrice 1, false)]
  /\ count_active "raw"
       (coffee_prices (store (world (handleSubmit update_refused_page)))) = 2.
Proof.
  destruct (submit_write_failure update_refused_page eq_refl)
    as [Hn [_ [_ Htwo]]].
  split; [reflexivity|]. split; [exact Hn|]. split; [reflexivity|].
  apply (Htwo 1 raw150).
  - simpl. auto.
  - exact shop_at_most_one_active.
  - simpl. auto.
  - reflexivity.
  - reflexivity.
Defined.

(** C9: after a successful [handleSubmit] the form holds its default values
    (coffee type "raw", empty price, currency "PHP"), the notice "Price
    updated successfully" was shown, and right after its writes the run
    made two more round trips: the active-price read and then the history
    read.  Each list is replaced by what its read returns from the store as
    the writes left it whenever the store serves that read; a list stays as
    it was only when the store refuses its read. *)
Theorem submit_success_effects (w : World) :
  succeeded (handleSubmit w) = true ->
  newPrice (ui (world (handleSubmit w))) = Form.mk "raw" "" "PHP"
  /\ In (Success, "Price updated successfully")
        (notices (trace (handleSubmit w)))
  /\ queries (trace (handleSubmit w))
     = writes (trace (handleSubmit w))
       ++ [(SelectActivePrices,
            negb (fails (reply w (writes_before_refresh (ui w)))));
           (SelectPriceHistory,
            negb (fails (reply w (S (writes_before_refresh (ui w))))))]
  /\ currentPrices (ui (world (handleSubmit w)))
     = (if fails (reply w (writes_before_refresh (ui w)))
        then currentPrices (ui w)
        else listActivePrices (store (world (handleSubmit w))))
  /\ priceHistory (ui (world (handleSubmit w)))
     = (if fails (reply w (S (writes_before_refresh (ui w))))
        then priceHistory (ui w)
        else listPriceHistory (store (world (handleSubmit w))))
  /\ List.length (writes (trace (handleSubmit w)))
     = writes_before_refresh (ui w).
Proof.
  unfold succeeded, writes_before_refresh.
  run_all w; simpl; intros; try discriminate; repeat split; auto.
Qed.

(** The successful submit of the scenario, every round trip served: after
    the three writes come the two reads, and both lists show the new
    state of the store. *)
Lemma submit_success_effects_witness :
  newPrice (ui (world (handleSubmit fresh_page))) = Form.mk "raw" "" "PHP"
  /\ In (Success, "Price updated successfully")
        (notices (trace (handleSubmit fresh_page)))
  /\ queries (trace (handleSubmit fresh_page))
     = [(InsertPrice (Form.mk "raw" "160.00" "PHP") "u-admin" true, true);
        (DeactivatePrice 1, true);
        (InsertHistory
           (HistoryRecord.mk 2 "raw" "150.00" "160.00" "u-admin"
                             "Price update"), true)]
       ++ [(SelectActivePrices, true); (SelectPriceHistory, true)]
  /\ currentPrices (ui (world (handleSubmit fresh_page)))
     = [Prices.mkJoined
          (Prices.mk 2 "raw" "160.00" "PHP" true "u-admin" 20%Z)
          (Some (mkPerson "Ana" "Reyes"))]
  /\ priceHistory (ui (world (handleSubmit fresh_page)))
     = [History.mkJoined
          (History.mk 1 2 "raw" "150.00" "160.00" "u-admin" 20%Z
                      "Price update")
          (Some (mkPerson "Ana" "Reyes"))]
  /\ List.length (writes (trace (handleSubmit fresh_page))) = 3.
Proof.
  exact (submit_success_effects fresh_page eq_refl).
Defined.

(* ------------------------------------------------------------------ *)
(** ** Further properties of the page *)

(** *** Errors and the access gate *)

(** X1: when [checkUser] has a principal but the lookup of its user row is
    refused, or does not find exactly one row with the principal's id, the
    error is caught: the one notice is "Error checking user permissions",
    there is no redirect, and the component state and the store stay as
    they were. *)
Theorem checkUser_lookup_failure (w : World) (uid : UserId) :
  session w = Some uid ->
  fails (reply w 0) = true
  \/ List.length (filter (fun u => Users.id u =? uid) (users (store w))) <> 1 ->
  out (checkUser w) = Return tt
  /\ notices (trace (checkUser w))
     = [(Failure, "Error checking user permissions")]
  /\ redirects (trace (checkUser w)) = []
  /\ ui (world (checkUser w)) = ui w
  /\ store (world (checkUser w)) = store w.
Proof.
  intros Hs H.
  rewrite (checkUser_lookup_failed w uid Hs).
  - repeat split.
  - destruct H as [H|H]; [now left|right].
    now apply single_user_failed.
Qed.

(** A principal of the identity provider that has no row in [users]. *)
Lemma checkUser_lookup_failure_witness :
  out (checkUser (boot shop (Some "u-ghost") served)) = Return tt
  /\ notices (trace (checkUser (boot shop (Some "u-ghost") served)))
     = [(Failure, "Error checking user permissions")]
  /\ redirects (trace (checkUser (boot shop (Some "u-ghost") served))) = []
  /\ ui (world (checkUser (boot shop (Some "u-ghost") served))) = initial_state
  /\ store (world (checkUser (boot shop (Some "u-ghost") served))) = shop.
Proof.
  refine (checkUser_lookup_failure (boot shop (Some "u-ghost") served)
            "u-ghost" eq_refl _).
  right. simpl. discriminate.
Defined.

(** X2: no error escapes a handler: [checkUser], [fetchPrices],
    [fetchPriceHistory], [handleSubmit], the mount effect and every session
    of the page end normally, whatever the store answers. *)
Theorem handlers_never_throw (w : World) (l : list Step) :
  out (checkUser w) = Return tt
  /\ out (fetchPrices w) = Return tt
  /\ out (fetchPriceHistory w) = Return tt
  /\ out (handleSubmit w) = Return tt
  /\ out (useEffect_mount w) = Return tt
  /\ out (steps l w) = Return tt.
Proof.
  split; [apply checkUser_returns|].
  split; [apply fetchPrices_returns|].
  split; [apply fetchPriceHistory_returns|].
  split; [apply handleSubmit_returns|].
  split; [|apply steps_returns].
  unfold useEffect_mount. rewrite run_tasks_steps. apply steps_returns.
Qed.

(** X3: opening the page writes nothing: whichever of the three functions
    of the mount effect run, and in whatever order, the store stays as it
    was and no insert or update is sent. *)
Theorem mount_writes_nothing (ts : list Task) (w : World) :
  store (world (run_tasks ts w)) = store w
  /\ writes (trace (run_tasks ts w)) = [].
Proof.
  rewrite run_tasks_steps.
  destruct (steps_invariant
              (fun s => exists t, s = Completes t)
              (fun w' => store w' = store w)
              reads_only) with (l := map Completes ts) (w := w)
    as [H1 H2].
  - intros s w' [t ->] Hw'. simpl.
    destruct (task_reads_only t w') as [Hst [_ Hq]].
    split; [congruence|exact Hq].
  - rewrite Forall_forall. intros s Hs.
    apply in_map_iff in Hs. destruct Hs as [t [<- _]]. now exists t.
  - reflexivity.
  - split; [exact H1|]. now apply reads_only_writes.
Qed.

(** X4: a page that has no user stored and whose principal is not an admin
    never writes: if there is no principal, or the lookup of its row fails,
    or the row has a role other than "admin", then through any session -
    functions of the mount effect completing, the user editing the form and
    submitting, in any order - [user] stays null, no insert or update is
    sent, and the store stays as it was. *)
Theorem non_admin_never_writes (w : World) (l : list Step) :
  user (ui w) = None ->
  (forall uid d, session w = Some uid ->
                 single_user (store w) uid = Data d ->
                 Users.role d <> "admin") ->
  user (ui (world (steps l w))) = None
  /\ writes (trace (steps l w)) = []
  /\ store (world (steps l w)) = store w.
Proof.
  intros Hu Hna.
  destruct (steps_invariant
              (fun _ => True)
              (fun w' => user (ui w') = None
                         /\ session w' = session w /\ store w' = store w)
              reads_only) with (l := l) (w := w)
    as [[H1 [_ H3]] H2].
  - intros s w' _ HI. now apply step_without_user.
  - rewrite Forall_forall. auto.
  - auto.
  - split; [exact H1|]. split; [|exact H3]. now apply reads_only_writes.
Qed.

(** The farmer opens the page, types a price and submits. *)
Lemma non_admin_never_writes_witness :
  user (ui (world (steps [Completes CheckUser; Completes FetchPrices;
                          Completes FetchPriceHistory;
                          User (TypePrice "160.00"); User Submit]
                         farmer_opens))) = None
  /\ writes (trace (steps [Completes CheckUser; Completes FetchPrices;
                           Completes FetchPriceHistory;
                           User (TypePrice "160.00"); User Submit]
                          farmer_opens)) = []
  /\ store (world (steps [Completes CheckUser; Completes FetchPrices;
                          Completes FetchPriceHistory;
                          User (TypePrice "160.00"); User Submit]
                         farmer_opens)) = shop.
Proof.
  refine (non_admin_never_writes farmer_opens _ eq_refl _).
  intros uid d Hs Hr. simpl in Hs. inversion Hs. subst uid.
  vm_compute in Hr. inversion Hr. discriminate.
Defined.

(** X5: every insert of a session names the signed-in admin.  On a page
    opened with no user stored, whatever the session, the [created_by] of
    every price insert and the [changed_by] of every history insert is the
    id of the principal of the identity provider, and that principal has a
    row with role "admin" in [users]. *)
Theorem inserts_name_admin_principal (w : World) (l : list Step) :
  user (ui w) = None ->
  (forall f c a ok,
      In (InsertPrice f c a, ok) (queries (trace (steps l w))) ->
      admin_principal w c)
  /\ (forall h ok,
        In (InsertHistory h, ok) (queries (trace (steps l w))) ->
        admin_principal w (HistoryRecord.changed_by h)).
Proof.
  intros Hu.
  destruct (steps_invariant
              (fun _ => True)
              (fun w' => session w' = session w
                         /\ users (store w') = users (store w)
                         /\ (forall u, user (ui w') = Some u ->
                                       admin_principal w (Users.id u)))
              (carries (admin_principal w))) with (l := l) (w := w)
    as [_ H].
  - intros s w' _ HI. now apply step_carries.
  - rewrite Forall_forall. auto.
  - split; [reflexivity|]. split; [reflexivity|].
    intros u E. rewrite Hu in E. discriminate.
  - rewrite Forall_forall in H. split.
    + intros f c a ok Hin. apply queries_In in Hin. exact (H _ Hin).
    + intros h ok Hin. apply queries_In in Hin. exact (H _ Hin).
Qed.

(** The admin opens the page, types a price and submits. *)
Lemma inserts_name_admin_principal_witness :
  (forall f c a ok,
      In (InsertPrice f c a, ok)
         (queries (trace (steps [Completes CheckUser; Completes FetchPrices;
                                 Completes FetchPriceHistory;
                                 User (TypePrice "160.00"); User Submit]
                                (boot shop (Some "u-admin") served)))) ->
      admin_principal (boot shop (Some "u-admin") served) c)
  /\ In (InsertPrice (Form.mk "raw" "160.00" "PHP") "u-admin" true, true)
        (queries (trace (steps [Completes CheckUser; Completes FetchPrices;
                                Completes FetchPriceHistory;
                                User (TypePrice "160.00"); User Submit]
                               (boot shop (Some "u-admin") served)))).
Proof.
  split.
  - exact (proj1 (inserts_name_admin_principal
                    (boot shop (Some "u-admin") served) _ eq_refl)).
  - vm_compute. auto 10.
Defined.

(** *** What the page shows *)

(** X6: the submit button between handlers.  After any session, the button
    is enabled and reads "Update Price" as soon as [fetchPriceHistory] has
    completed or a submit has run (whatever their outcome); until then it
    is as it was, since no other handler touches the loading flag. *)
Theorem session_submit_button (l : list Step) (w : World) :
  submit_button (ui (world (steps l w)))
  = if existsb clears_loading l then mkButton false "Update Price"
    else submit_button (ui w).
Proof.
  unfold submit_button.
  assert (H : loading (ui (world (steps l w)))
              = if existsb clears_loading l then false else loading (ui w)).
  { revert w. induction l as [|s l IH]; intros w.
    - reflexivity.
    - rewrite steps_cons. simpl. rewrite IH, step_loading.
      destruct (existsb clears_loading l), (clears_loading s); reflexivity. }
  rewrite H. now destruct (existsb clears_loading l).
Qed.

(** X7: the name cell of both tables reads "Unknown" exactly when the row
    has no joined user: a joined user's two names are never rendered as
    "Unknown".  For the rows of the active-price read this is exactly when
    no row of [users] has the id in [created_by]. *)
Theorem unknown_name_means_no_user (s : Store) :
  (forall p, display_name p = "Unknown" <-> p = None)
  /\ (forall price,
        In price (listActivePrices s) ->
        (created_by_shown (price_line price) = "Unknown"
         <-> forall u, In u (users s) ->
                       Users.id u <> Prices.created_by (Prices.columns price))).
Proof.
  assert (Hname : forall p, display_name p = "Unknown" <-> p = None).
  { intros [c|]; split; intros E; try reflexivity; try discriminate.
    change (String.append (first_name c) (String.append " " (last_name c))
            = "Unknown") in E.
    pose proof (has_space_append (first_name c) (last_name c)) as H.
    rewrite E in H. discriminate. }
  split; [exact Hname|].
  intros price Hin. simpl. rewrite Hname.
  apply listActivePrices_In in Hin. destruct Hin as [r [-> _]]. simpl.
  unfold embed_person. split.
  - destruct (find _ (users s)) eqn:E; [discriminate|].
    intros _ u Hu Hid. pose proof (find_none _ _ E u Hu) as H. simpl in H.
    apply String.eqb_neq in H. contradiction.
  - intros H. destruct (find _ (users s)) as [u|] eqn:E; [|reflexivity].
    apply find_some in E. destruct E as [Hu Hid].
    apply String.eqb_eq in Hid. elim (H u Hu Hid).
Qed.

(** *** What the page writes and keeps *)

(** X8: rows stay well formed.  If the form, the price rows of the store
    and the price rows on display all have currency "PHP" and a coffee type
    of the dropdown, they still do after any session in which the user
    picks coffee types from the dropdown; so every line of the "Current
    Prices" table has a label and shows "PHP". *)
Theorem session_keeps_rows_well_formed (l : list Step) (w : World) :
  well_formed w ->
  Forall from_dropdown l ->
  well_formed (world (steps l w))
  /\ Forall (fun line => price_label line <> None
                         /\ currency_shown line = "PHP")
            (current_prices_table (ui (world (steps l w)))).
Proof.
  intros Hw Hl.
  destruct (steps_invariant from_dropdown well_formed (fun _ => True))
    with (l := l) (w := w) as [H _]; auto.
  - intros s w' Hs HI. split; [now apply step_well_formed|].
    rewrite Forall_forall. auto.
  - split; [exact H|].
    destruct H as [_ [_ H]]. unfold current_prices_table.
    rewrite Forall_forall in *. intros line Hline.
    apply in_map_iff in Hline. destruct Hline as [p [<- Hp]]. simpl.
    destruct (H (Prices.columns p) (in_map _ _ _ Hp)) as [Hc Ht].
    split; [|exact Hc]. now apply coffee_label_offered.
Qed.

(** The admin opens the page, picks dried coffee, types a price, submits. *)
Lemma session_keeps_rows_well_formed_witness :
  well_formed
    (world (steps [Completes CheckUser; Completes FetchPrices;
                   Completes FetchPriceHistory; User (PickType "dried");
                   User (TypePrice "95.00"); User Submit]
                  (boot shop (Some "u-admin") served)))
  /\ Forall (fun line => price_label line <> None
                         /\ currency_shown line = "PHP")
            (current_prices_table
               (ui (world (steps [Completes CheckUser; Completes FetchPrices;
                                  Completes FetchPriceHistory;
                                  User (PickType "dried");
                                  User (TypePrice "95.00"); User Submit]
                                 (boot shop (Some "u-admin") served))))).
Proof.
  apply session_keeps_rows_well_formed.
  - split; [apply default_form_ok|]. split.
    + constructor; [|constructor]. split; [reflexivity|].
      unfold offered. simpl. auto.
    + constructor.
  - repeat (apply Forall_cons; [unfold from_dropdown, offered; simpl; auto 10|]).
    apply Forall_nil.
Defined.

(** X9: the page only adds.  Through any session the users table is
    untouched, the history table only gets rows appended (no history row
    is changed or removed), and the prices table keeps every row in place,
    changed at most in that [is_active] went to false, with new rows
    appended. *)
Theorem session_only_grows (l : list Step) (w : World) :
  users (store (world (steps l w))) = users (store w)
  /\ (exists hs,
        coffee_price_history (store (world (steps l w)))
        = coffee_price_history (store w) ++ hs)
  /\ (exists olds news,
        coffee_prices (store (world (steps l w))) = olds ++ news
        /\ Forall2 (fun r r' => r' = r \/ r' = set_inactive r)
                   (coffee_prices (store w)) olds).
Proof.
  destruct (steps_invariant (fun _ => True)
                            (fun w' => grows (store w) (store w'))
                            (fun _ => True))
    with (l := l) (w := w) as [H _].
  - intros s w' _ HI. split.
    + eapply grows_trans; [exact HI|apply step_grows].
    + rewrite Forall_forall. auto.
  - rewrite Forall_forall. auto.
  - apply grows_refl.
  - exact H.
Qed.

(** *** What the page reads back *)

(** X10: a served [fetchPrices] shows exactly the active rows of the prices
    table, each with its creator joined, in the order of their coffee
    types; when the table has at most one active row per coffee type, no
    two lines shown have the same coffee type. *)
Theorem fetchPrices_shows_active (w : World) :
  fails (reply w 0) = false ->
  (forall p, In p (currentPrices (ui (world (fetchPrices w)))) <->
             exists r, p = join_creator (users (store w)) r
                       /\ In r (coffee_prices (store w))
                       /\ Prices.is_active r = true)
  /\ Permutation (map Prices.columns (currentPrices (ui (world (fetchPrices w)))))
                 (filter Prices.is_active (coffee_prices (store w)))
  /\ Sorted (fun a b => String.leb (Prices.coffee_type a)
                                   (Prices.coffee_type b) = true)
            (map Prices.columns (currentPrices (ui (world (fetchPrices w)))))
  /\ (at_most_one_active (store w) ->
      NoDup (map (fun p => Prices.coffee_type (Prices.columns p))
                 (currentPrices (ui (world (fetchPrices w)))))).
Proof.
  intros H0. rewrite (fetchPrices_served w H0). simpl.
  split; [intros p; apply listActivePrices_In|].
  rewrite listActivePrices_columns.
  split; [apply order_by_perm|]. split.
  - apply (order_by_adjacent Prices.row by_coffee_type). unfold by_coffee_type.
    intros a b H.
    destruct (String.leb_total (Prices.coffee_type a) (Prices.coffee_type b))
      as [E|E]; congruence.
  - intros Hinv.
    rewrite <- map_map with (f := Prices.columns) (g := Prices.coffee_type).
    rewrite listActivePrices_columns.
    eapply Permutation_NoDup.
    + apply Permutation_map, Permutation_sym, order_by_perm.
    + now apply active_types_NoDup.
Qed.

(** The page of the scenario reads its one active price. *)
Lemma fetchPrices_shows_active_witness :
  Permutation
    (map Prices.columns
         (currentPrices (ui (world (fetchPrices (boot shop (Some "u-admin") served))))))
    [raw150]
  /\ NoDup (map (fun p => Prices.coffee_type (Prices.columns p))
                (currentPrices
                   (ui (world (fetchPrices (boot shop (Some "u-admin") served)))))).
Proof.
  destruct (fetchPrices_shows_active (boot shop (Some "u-admin") served) eq_refl)
    as [_ [Hp [_ Hn]]].
  split; [exact Hp|]. apply Hn. exact shop_at_most_one_active.
Defined.

(** X11: a successful submit is read back.  Starting in sync with a store
    that has at most one active row per coffee type, after a successful
    [handleSubmit] whose active-price read was served the page is in sync
    again, the store still has at most one active row per coffee type, and
    the "Current Prices" list holds exactly one line of the submitted
    coffee type: the inserted row, with the submitted price. *)
Theorem submit_read_back (w : World) :
  at_most_one_active (store w) ->
  in_sync w ->
  succeeded (handleSubmit w) = true ->
  In (SelectActivePrices, true) (queries (trace (handleSubmit w))) ->
  in_sync (after_submit w)
  /\ at_most_one_active (store (after_submit w))
  /\ exists p,
       In p (currentPrices (ui (after_submit w)))
       /\ Prices.coffee_type (Prices.columns p)
          = Form.coffee_type (newPrice (ui w))
       /\ Prices.price_per_kg (Prices.columns p)
          = Form.price_per_kg (newPrice (ui w))
       /\ Prices.is_active (Prices.columns p) = true
       /\ (forall p', In p' (currentPrices (ui (after_submit w))) ->
                      Prices.coffee_type (Prices.columns p')
                      = Form.coffee_type (newPrice (ui w)) ->
                      p' = p).
Proof.
  intros Hinv Hsync Hok Hread. unfold after_submit.
  destruct (handleSubmit_succeeded_inv w Hok) as [u [Hu [H0 Hcp]]].
  pose proof (handleSubmit_readback w Hok Hread) as Hsync1.
  pose proof (success_keeps_invariant w u Hinv Hsync Hu H0 Hcp) as Hinv1.
  pose proof (inserted_row_stays w u Hsync Hu H0) as Hnew.
  rewrite <- handleSubmit_store in Hinv1, Hnew.
  split; [exact Hsync1|]. split; [exact Hinv1|].
  unfold in_sync in Hsync1. rewrite Hsync1.
  exists (join_creator (users (store (world (handleSubmit w))))
                       (inserted_row w u)).
  split; [apply listActivePrices_In; now exists (inserted_row w u)|].
  repeat (split; [reflexivity|]).
  intros p' Hp' Ht.
  apply listActivePrices_In in Hp'. destruct Hp' as [r [-> [Hr Ha]]].
  simpl in Ht. f_equal.
  apply (active_unique (Form.coffee_type (newPrice (ui w)))
                       (coffee_prices (store (world (handleSubmit w)))));
    auto.
  - unfold active_of. rewrite Ha, Ht. simpl. apply String.eqb_refl.
  - rewrite active_of_inserted. apply String.eqb_refl.
Qed.

(** The successful submit of the scenario. *)
Lemma submit_read_back_witness :
  in_sync (after_submit fresh_page)
  /\ at_most_one_active (store (after_submit fresh_page))
  /\ exists p,
       In p (currentPrices (ui (after_submit fresh_page)))
       /\ Prices.coffee_type (Prices.columns p) = "raw"
       /\ Prices.price_per_kg (Prices.columns p) = "160.00"
       /\ Prices.is_active (Prices.columns p) = true
       /\ (forall p', In p' (currentPrices (ui (after_submit fresh_page))) ->
                      Prices.coffee_type (Prices.columns p') = "raw" ->
                      p' = p).
Proof.
  refine (submit_read_back fresh_page shop_at_most_one_active eq_refl eq_refl _).
  vm_compute. auto 10.
Defined.



(** X13: a retry does not repair a refused deactivation.  Starting in sync
    with a store that has at most one active row per coffee type, when the
    deactivation of a submit is refused and the user submits the same form
    again, then even if the second run succeeds the store ends with two
    active rows of the submitted coffee type: the row of the first attempt
    is never deactivated. *)
Theorem retry_keeps_two_active (w : World) (pid : nat) :
  at_most_one_active (store w) ->
  in_sync w ->
  In (DeactivatePrice pid, false) (queries (trace (handleSubmit w))) ->
  succeeded (handleSubmit (after_submit w)) = true ->
  count_active (Form.coffee_type (newPrice (ui w)))
               (coffee_prices (store (after_submit (after_submit w)))) = 2.
Proof.
  intros Hinv Hsync Hin Hok.
  destruct (deactivation_refused_inv w pid Hin)
    as [u [cp [Hu [H0 [Ecp [Hpid [H1 Hf]]]]]]].
  destruct (handleSubmit_write_failed w Hf) as [_ [_ Hui]].
  assert (Hst1 : store (after_submit w)
                 = add_price (store w) (inserted_row w u)).
  { unfold after_submit. rewrite handleSubmit_store.
    unfold store_after_submit. now rewrite Hu, H0, Ecp, H1. }
  fold (after_submit w) in Hui.
  set (w1 := after_submit w) in *.
  set (t := Form.coffee_type (newPrice (ui w))) in *.
  assert (Ecp1 : currentPrice (ui w1) = Some cp).
  { unfold currentPrice. rewrite Hui. exact Ecp. }
  assert (Ht1 : Form.coffee_type (newPrice (ui w1)) = t) by now rewrite Hui.
  clearbody w1.
  destruct (handleSubmit_succeeded_inv w1 Hok) as [u1 [Hu1 [H01 Hcp1]]].
  destruct (Hcp1 cp Ecp1) as [H11 H21].
  destruct (currentPrice_in_store w cp Hsync Ecp) as [Hold Hact].
  fold t in Hact.
  change (after_submit w1) with (world (handleSubmit w1)).
  rewrite handleSubmit_store.
  unfold store_after_submit. rewrite Hu1, H01, Ecp1, H11, H21. cbv zeta.
  simpl. rewrite Hst1. simpl.
  set (ps := coffee_prices (store w)) in *.
  set (n1 := inserted_row w u).
  set (n2 := inserted_row w1 u1).
  assert (Hlt1 : Prices.price_id (Prices.columns cp) < Prices.price_id n1).
  { apply fresh_price_id_gt in Hold. exact Hold. }
  assert (Hlt2 : Prices.price_id (Prices.columns cp) < Prices.price_id n2).
  { unfold n2, inserted_row, new_price_row. simpl. rewrite Hst1. simpl.
    apply fresh_price_id_gt. apply in_or_app. now left. }
  rewrite deactivate_other by lia.
  rewrite deactivate_other by lia.
  rewrite !count_active_snoc.
  unfold n2 at 1. rewrite active_of_inserted, Ht1, String.eqb_refl.
  unfold n1 at 1. rewrite active_of_inserted. fold t.
  rewrite String.eqb_refl.
  rewrite count_active_deactivate_zero; [reflexivity|].
  intros r Hr Ha. f_equal. now apply (active_unique t ps).
Qed.

(** The refused deactivation of the scenario, then a second try. *)
Lemma retry_keeps_two_active_witness :
  count_active "raw"
    (coffee_prices (store (after_submit (after_submit update_refused_page))))
  = 2.
Proof.
  refine (retry_keeps_two_active update_refused_page 1
            shop_at_most_one_active eq_refl _ eq_refl).
  vm_compute. auto 10.
Defined.

(** *** Notices and references *)

(** X14: every run of [handleSubmit] shows exactly one of its two notices.
    A successful run shows "Price updated successfully" once, as its first
    notice, and never "Failed to update price"; any other run - a refused
    write, or no user to dereference - shows "Failed to update price" and
    nothing else. *)
Theorem submit_notice_exclusive (w : World) :
  (succeeded (handleSubmit w) = true
   /\ In (Success, "Price updated successfully")
         (notices (trace (handleSubmit w)))
   /\ ~ In (Failure, "Failed to update price")
          (notices (trace (handleSubmit w)))
   /\ ~ In (Success, "Price updated successfully")
          (tl (notices (trace (handleSubmit w)))))
  \/ (succeeded (handleSubmit w) = false
      /\ notices (trace (handleSubmit w))
         = [(Failure, "Failed to update price")]).
Proof.
  unfold succeeded.
  run_all w; simpl;
    try (right; split; reflexivity);
    left; (split; [reflexivity|]); (split; [auto|]);
    split; intuition discriminate.
Qed.

(** X15: the history row of a successful update points at the new price.
    After a successful [handleSubmit] that found a prior record, the
    [price_id] of the appended history row is the key of a row of the
    prices table, and that row carries the history row's [new_price] and
    [coffee_type]. *)
Theorem history_points_at_new_price (w : World) (cp : Prices.joined) :
  currentPrice (ui w) = Some cp ->
  succeeded (handleSubmit w) = true ->
  exists h r,
    coffee_price_history (store (world (handleSubmit w)))
    = coffee_price_history (store w) ++ [h]
    /\ In r (coffee_prices (store (world (handleSubmit w))))
    /\ Prices.price_id r = History.price_id h
    /\ Prices.price_per_kg r = History.new_price h
    /\ Prices.coffee_type r = History.coffee_type h.
Proof.
  intros Ecp Hok.
  destruct (handleSubmit_succeeded_inv w Hok) as [u [Hu [H0 Hcp]]].
  destruct (Hcp cp Ecp) as [H1 H2].
  rewrite handleSubmit_store. unfold store_after_submit.
  rewrite Hu, H0, Ecp, H1, H2. cbv zeta.
  set (pid := Prices.price_id (Prices.columns cp)).
  set (nr := inserted_row w u).
  eexists.
  exists (if (Prices.price_id nr =? pid)%nat then set_inactive nr else nr).
  split; [reflexivity|]. split.
  - simpl. unfold deactivate. rewrite map_app. apply in_or_app. right.
    simpl. now left.
  - destruct (Prices.price_id nr =? pid)%nat; repeat split.
Qed.

(** The successful update of the scenario. *)
Lemma history_points_at_new_price_witness :
  exists h r,
    coffee_price_history (store (world (handleSubmit fresh_page))) = [] ++ [h]
    /\ In r (coffee_prices (store (world (handleSubmit fresh_page))))
    /\ Prices.price_id r = History.price_id h
    /\ Prices.price_per_kg r = History.new_price h
    /\ Prices.coffee_type r = History.coffee_type h.
Proof.
  exact (history_points_at_new_price fresh_page
           (join_creator (users shop) raw150) eq_refl eq_refl).
Defined.
